(** * Summon Parking Valet: the chat session and its result views

    A shallow embedding of [src/pages/journey-chat.tsx] (the [JourneyUI]
    component: the message log, [callBackendAPI], [handleSubmit] and the
    per-message rendering), of the two [DataVisualization] components, of
    the earlier chat page [JourneyChat] and of the widgets [Tabs], [Button]
    and [Input].

    React state cells become fields of a record, event handlers become
    transitions on that record, and the one suspension point of the page
    (the [await fetch]) splits [callBackendAPI] in two transitions: the part
    that runs when the form is submitted and the part that runs when the
    request settles.  [Date.now()] is a reading the environment supplies
    with each event. *)

From Stdlib Require Import List ZArith NArith Bool Lia String Ascii.
From Stdlib Require Import DecimalString DecimalNat.
Import ListNotations.

(** ** JavaScript strings *)

Module JsString.

(** A JavaScript string is a sequence of UTF-16 code units. *)
Definition t := list N.

(** An ASCII literal as a JavaScript string. *)
Definition js (s : string) : t := map N_of_ascii (list_ascii_of_string s).

(** [WhiteSpace] and [LineTerminator] code points of ECMAScript, the ones
    [String.prototype.trim] strips. *)
Definition isWhiteSpace (c : N) : bool :=
  ((9 <=? c) && (c <=? 13)          (* TAB, LF, VT, FF, CR *)
   || (c =? 32)                      (* SP *)
   || (c =? 160)                     (* NBSP *)
   || (c =? 5760)                    (* OGHAM SPACE MARK *)
   || ((8192 <=? c) && (c <=? 8202)) (* EN QUAD .. HAIR SPACE *)
   || (c =? 8232) || (c =? 8233)     (* LS, PS *)
   || (c =? 8239) || (c =? 8287)     (* NNBSP, MMSP *)
   || (c =? 12288)                   (* IDEOGRAPHIC SPACE *)
   || (c =? 65279))%N.               (* ZWNBSP *)

Fixpoint trimStart (s : t) : t :=
  match s with
  | c :: s' => if isWhiteSpace c then trimStart s' else s
  | [] => []
  end.

Definition trimEnd (s : t) : t := rev (trimStart (rev s)).

(** [s.trim()] *)
Definition trim (s : t) : t := trimEnd (trimStart s).

(** Truthiness of a string: the empty string is the only falsy one. *)
Definition truthy (s : t) : bool :=
  match s with [] => false | _ :: _ => true end.

Definition eqb (a b : t) : bool :=
  if list_eq_dec N.eq_dec a b then true else false.

(** [`${n}`] for a non-negative integer [n]. *)
Definition ofNat (n : nat) : t := js (NilEmpty.string_of_uint (Nat.to_uint n)).

End JsString.

Definition jsstring : Type := JsString.t.
Definition js : string -> jsstring := JsString.js.

(** ** Data model of [journey-chat.tsx] *)

(** A cell of [query_results]: the page declares [number[][]], the chart
    component [(string | number)[][]].  No arithmetic is done on cells. *)
Inductive Cell : Type :=
| CNum (n : Z)
| CStr (s : jsstring).

Definition Row := list Cell.

(** [row[i]]: [None] is [undefined]. *)
Definition at_ {A} (l : list A) (i : nat) : option A := nth_error l i.

(** [interface BackendResponse] *)
Record BackendResponse : Type := mkResponse {
  query_results : option (list Row);
  nl_explanation : option jsstring;
  error : option jsstring
}.

Inductive MessageType : Type := user | system.

(** [interface ChatMessage] *)
Record ChatMessage : Type := mkMessage {
  id : Z;
  type : MessageType;
  content : jsstring;
  responseData : option BackendResponse
}.

(** How the request of one [callBackendAPI] call settles. *)
Inductive FetchOutcome : Type :=
| Rejected                          (* [fetch] rejects: no response at all *)
| Responded (status : Z) (body : option BackendResponse).
                                    (* [body = None]: [response.json()] rejects *)

(** [response.ok] *)
Definition ok (status : Z) : bool := ((200 <=? status) && (status <=? 299))%Z.

Definition errorText : jsstring := js "An error occurred. Please try again.".

(** The state cells of [JourneyUI], and the requests that are in flight
    (the [query] each one carries, oldest first). *)
Record State : Type := mkState {
  userInput : jsstring;
  latestResponse : option BackendResponse;   (* the [responseData] cell *)
  isLoading : bool;
  activeTab : jsstring;
  isSidebarOpen : bool;
  chatHistory : list ChatMessage;
  inFlight : list jsstring
}.

Definition initialState : State :=
  {| userInput := [];
     latestResponse := None;
     isLoading := false;
     activeTab := js "book";
     isSidebarOpen := false;
     chatHistory := [];
     inFlight := [] |}.

(** ** The controller: [callBackendAPI] and [handleSubmit] *)

Definition setUserInput (v : jsstring) (s : State) : State :=
  mkState v (latestResponse s) (isLoading s) (activeTab s) (isSidebarOpen s)
          (chatHistory s) (inFlight s).

Definition setResponseData (v : option BackendResponse) (s : State) : State :=
  mkState (userInput s) v (isLoading s) (activeTab s) (isSidebarOpen s)
          (chatHistory s) (inFlight s).

Definition setIsLoading (v : bool) (s : State) : State :=
  mkState (userInput s) (latestResponse s) v (activeTab s) (isSidebarOpen s)
          (chatHistory s) (inFlight s).

Definition setActiveTab (v : jsstring) (s : State) : State :=
  mkState (userInput s) (latestResponse s) (isLoading s) v (isSidebarOpen s)
          (chatHistory s) (inFlight s).

Definition setIsSidebarOpen (v : bool) (s : State) : State :=
  mkState (userInput s) (latestResponse s) (isLoading s) (activeTab s) v
          (chatHistory s) (inFlight s).

(** [setChatHistory(prev => f prev)] *)
Definition setChatHistory (f : list ChatMessage -> list ChatMessage) (s : State)
  : State :=
  mkState (userInput s) (latestResponse s) (isLoading s) (activeTab s)
          (isSidebarOpen s) (f (chatHistory s)) (inFlight s).

Definition setInFlight (v : list jsstring) (s : State) : State :=
  mkState (userInput s) (latestResponse s) (isLoading s) (activeTab s)
          (isSidebarOpen s) (chatHistory s) v.

(** [fetch(BACKEND_URL, { ..., body: JSON.stringify({ query }) })]: the
    request leaves with [query] as its payload. *)
Definition fetch (query : jsstring) (s : State) : State :=
  setInFlight (inFlight s ++ [query]) s.

Definition userMessage (now : Z) (input : jsstring) : ChatMessage :=
  {| id := now; type := user; content := input; responseData := None |}.

Definition systemMessage (now : Z) (explanation : jsstring)
           (data : BackendResponse) : ChatMessage :=
  {| id := now + 1; type := system; content := explanation;
     responseData := Some data |}.

Definition errorMessage (now : Z) : ChatMessage :=
  {| id := now; type := system; content := errorText; responseData := None |}.

(** [callBackendAPI] up to its [await fetch(...)]. *)
Definition callBackendAPI_issue (now : Z) (input : jsstring) (s : State) : State :=
  let s := setIsLoading true s in
  let s := setChatHistory (fun prev => prev ++ [userMessage now input]) s in
  fetch input s.

(** The [catch] block. *)
Definition callBackendAPI_catch (now : Z) (s : State) : State :=
  let s := setChatHistory (fun prev => prev ++ [errorMessage now]) s in
  setResponseData (Some (mkResponse None None (Some errorText))) s.

(** The rest of the [try] block once the response body [data] is there. *)
Definition callBackendAPI_data (now : Z) (data : BackendResponse) (s : State)
  : State :=
  let s := setResponseData (Some data) s in
  match nl_explanation data with
  | Some explanation =>
      if JsString.truthy explanation
      then setChatHistory (fun prev => prev ++ [systemMessage now explanation data]) s
      else s
  | None => s
  end.

(** [callBackendAPI] from the point where the request settles: the rest of
    [try], or [catch], and then [finally]. *)
Definition callBackendAPI_settle (o : FetchOutcome) (now : Z) (s : State) : State :=
  let s :=
    match o with
    | Rejected => callBackendAPI_catch now s
    | Responded status body =>
        if negb (ok status) then callBackendAPI_catch now s
        else match body with
             | None => callBackendAPI_catch now s
             | Some data => callBackendAPI_data now data s
             end
    end in
  setIsLoading false s.

(** [handleSubmit] up to its [await]: nothing happens unless the trimmed
    input is truthy. *)
Definition handleSubmit (now : Z) (s : State) : State :=
  if JsString.truthy (JsString.trim (userInput s))
  then callBackendAPI_issue now (userInput s) s
  else s.

(** [handleSubmit] after its [await]. *)
Definition handleSubmit_resume (s : State) : State := setUserInput [] s.

Definition toggleSidebar (s : State) : State :=
  setIsSidebarOpen (negb (isSidebarOpen s)) s.

(** [l] without its [k]-th element. *)
Fixpoint dropAt {A} (k : nat) (l : list A) : list A :=
  match k, l with
  | _, [] => []
  | O, _ :: l' => l'
  | S k', x :: l' => x :: dropAt k' l'
  end.

(** What can happen to the page. *)
Inductive Event : Type :=
| Change (value : jsstring)                      (* [onChange] of the input *)
| Submit (now : Z)                               (* [onSubmit] of the form *)
| Settle (k : nat) (o : FetchOutcome) (now : Z)  (* the [k]-th request in flight settles *)
| SelectTab (tab : jsstring)
| ToggleSidebar.

(** One event; [None] when the event names a request that is not in flight. *)
Definition step (e : Event) (s : State) : option State :=
  match e with
  | Change value => Some (setUserInput value s)
  | Submit now => Some (handleSubmit now s)
  | Settle k o now =>
      match at_ (inFlight s) k with
      | None => None
      | Some _ =>
          let s := setInFlight (dropAt k (inFlight s)) s in
          Some (handleSubmit_resume (callBackendAPI_settle o now s))
      end
  | SelectTab tab => Some (setActiveTab tab s)
  | ToggleSidebar => Some (toggleSidebar s)
  end.

Fixpoint run (es : list Event) (s : State) : option State :=
  match es with
  | [] => Some s
  | e :: es' =>
      match step e s with
      | Some s' => run es' s'
      | None => None
      end
  end.

(** ** The chart components *)

Inductive ChartType : Type := bar | pie | line.

(** The [COLORS] palette, shared by both components. *)
Definition COLORS : list jsstring :=
  [js "#0088FE"; js "#00C49F"; js "#FFBB28";
   js "#FF8042"; js "#8884D8"; js "#82CA9D"].

(** The literal a chart type is written as. *)
Definition typeName (t : ChartType) : jsstring :=
  match t with bar => js "bar" | pie => js "pie" | line => js "line" end.

(** [toUpperCase] on one code unit, for the letters a to z. *)
Definition upper (c : N) : N :=
  if ((97 <=? c) && (c <=? 122))%N then (c - 32)%N else c.

(** [type.charAt(0).toUpperCase() + type.slice(1)] followed by [" Chart"] *)
Definition buttonLabel (t : ChartType) : jsstring :=
  match typeName t with
  | c :: rest => upper c :: rest ++ js " Chart"
  | [] => js " Chart"
  end.

(** One button of the mode switch: its label, the mode its click selects and
    whether it is drawn as the selected one. *)
Record Button : Type := mkButton {
  label : jsstring;
  selects : ChartType;
  highlighted : bool
}.

Definition chartTypeEqb (a b : ChartType) : bool :=
  match a, b with
  | bar, bar | pie, pie | line, line => true
  | _, _ => false
  end.

(** [['bar', 'pie', 'line'].map(type => <button ...>)] *)
Definition buttons (chartType : ChartType) : list Button :=
  map (fun t => mkButton (buttonLabel t) t (chartTypeEqb chartType t))
      [bar; pie; line].

(** [COLORS[index % COLORS.length]] *)
Definition colorOf (index : nat) : option jsstring :=
  at_ COLORS (index mod List.length COLORS).

(** The component [journey-chat.tsx] shows for a result of several rows: one
    point per row, made of the first two columns. *)
Module DataVisualization.

(** An element of [transformedData]; a field is [None] when the row is too
    short to have that column. *)
Record Point : Type := mkPoint {
  name : option Cell;
  value : option Cell
}.

(** [data.map(([name, value]) => ({ name, value }))] *)
Definition transformedData (data : list Row) : list Point :=
  map (fun row => mkPoint (at_ row 0) (at_ row 1)) data.

(** What [renderChart] returns: the chart element with the dataset it draws
    and the colours it is given. *)
Inductive Chart : Type :=
| BarChart (width height : Z) (data : list Point) (fill : option jsstring)
| PieChart (width height : Z) (data : list Point) (cells : list (option jsstring))
| LineChart (width height : Z) (data : list Point) (stroke : option jsstring).

Definition renderChart (chartType : ChartType) (transformed : list Point) : Chart :=
  let width := 500%Z in
  let height := 300%Z in
  match chartType with
  | bar => BarChart width height transformed (at_ COLORS 0)
  | pie => PieChart width height transformed
                    (map colorOf (seq 0 (List.length transformed)))
  | line => LineChart width height transformed (at_ COLORS 0)
  end.

(** The dataset a chart draws. *)
Definition chartData (c : Chart) : list Point :=
  match c with
  | BarChart _ _ d _ | PieChart _ _ d _ | LineChart _ _ d _ => d
  end.

Record View : Type := mkView {
  switch : list Button;
  chart : Chart
}.

(** The component function: [None] is the [null] it returns, [data = None]
    an [undefined] prop. *)
Definition render (data : option (list Row)) (chartType : ChartType)
  : option View :=
  match data with
  | None => None
  | Some [] => None
  | Some ((_ :: _) as rows) =>
      Some (mkView (buttons chartType)
                   (renderChart chartType (transformedData rows)))
  end.

(** A mounted component: its prop and its one state cell. *)
Record Instance : Type := mkInstance {
  data : option (list Row);
  chartType : ChartType
}.

(** [useState('bar')] *)
Definition mount (d : option (list Row)) : Instance := mkInstance d bar.

Definition setChartType (t : ChartType) (i : Instance) : Instance :=
  mkInstance (data i) t.

(** A click on each of the buttons [ts], in that order. *)
Definition clicks (ts : list ChartType) (i : Instance) : Instance :=
  fold_left (fun i t => setChartType t i) ts i.

Definition show (i : Instance) : option View := render (data i) (chartType i).

End DataVisualization.

(** The other [DataVisualization] in the repository
    ([src/components/ui/DataVisualization.tsx]): one entry per column of the
    first row, holding that column's value in every row. *)
Module DataVisualizationByColumn.

(** A JavaScript object used as a record of properties, in insertion order. *)
Definition Entry : Type := list (jsstring * option Cell).

(** [entry[key]] *)
Fixpoint getProp (key : jsstring) (entry : Entry) : option Cell :=
  match entry with
  | [] => None
  | (k, v) :: rest => if JsString.eqb k key then v else getProp key rest
  end.

(** [entry[key] = v] *)
Fixpoint setProp (key : jsstring) (v : option Cell) (entry : Entry) : Entry :=
  match entry with
  | [] => [(key, v)]
  | (k, w) :: rest =>
      if JsString.eqb k key then (k, v) :: rest else (k, w) :: setProp key v rest
  end.

(** [`Row ${rowIndex + 1}`] *)
Definition rowKey (rowIndex : nat) : jsstring :=
  js "Row " ++ JsString.ofNat (rowIndex + 1).

(** [labels && labels[colIndex] ? labels[colIndex] : `Column ${colIndex + 1}`] *)
Definition columnName (labels : option (list jsstring)) (colIndex : nat)
  : jsstring :=
  let fallback := js "Column " ++ JsString.ofNat (colIndex + 1) in
  match labels with
  | Some ls =>
      match at_ ls colIndex with
      | Some l => if JsString.truthy l then l else fallback
      | None => fallback
      end
  | None => fallback
  end.

(** The body of [data[0].map((_, colIndex) => ...)]. *)
Definition entryOf (data : list Row) (labels : option (list jsstring))
           (colIndex : nat) : Entry :=
  fold_left
    (fun entry '(rowIndex, row) => setProp (rowKey rowIndex) (at_ row colIndex) entry)
    (combine (seq 0 (List.length data)) data)
    (setProp (js "name") (Some (CStr (columnName labels colIndex))) []).

Definition transformedData (data : list Row) (labels : option (list jsstring))
  : list Entry :=
  match data with
  | [] => []
  | first :: _ => map (entryOf data labels) (seq 0 (List.length first))
  end.

(** [v || 0] *)
Definition orZero (v : option Cell) : Cell :=
  match v with
  | None => CNum 0
  | Some (CNum 0) => CNum 0
  | Some (CStr []) => CNum 0
  | Some c => c
  end.

Record PiePoint : Type := mkPiePoint {
  name : option Cell;
  value : Cell
}.

(** A [<Bar>] or [<Line>]: its [dataKey] and its colour. *)
Definition Series : Type := (jsstring * option jsstring)%type.

Inductive Chart : Type :=
| BarChart (width height : Z) (data : list Entry) (bars : list Series)
| PieChart (width height : Z) (data : list PiePoint) (cells : list (option jsstring))
| LineChart (width height : Z) (data : list Entry) (lines : list Series).

Definition renderChart (chartType : ChartType) (data : list Row)
           (transformed : list Entry) : Chart :=
  let width := 500%Z in
  let height := 300%Z in
  let perRow := map (fun rowIndex => (rowKey rowIndex, colorOf rowIndex))
                    (seq 0 (List.length data)) in
  match chartType with
  | bar => BarChart width height transformed perRow
  | pie =>
      let pieData :=
        map (fun item => mkPiePoint (getProp (js "name") item)
                                    (orZero (getProp (js "Row 1") item)))
            transformed in
      PieChart width height pieData (map colorOf (seq 0 (List.length pieData)))
  | line => LineChart width height transformed perRow
  end.

Record View : Type := mkView {
  switch : list Button;
  chart : Chart
}.

Definition render (data : option (list Row)) (labels : option (list jsstring))
           (chartType : ChartType) : option View :=
  match data with
  | None => None
  | Some [] => None
  | Some ((_ :: _) as rows) =>
      Some (mkView (buttons chartType)
                   (renderChart chartType rows (transformedData rows labels)))
  end.

End DataVisualizationByColumn.

(** ** How [JourneyUI] draws one message of the log *)

(** What is drawn under the bubble of a message. *)
Inductive Attachment : Type :=
| ScalarText (heading figure : option Cell)
    (* the [<h3>] and the [<p>]; [None] draws nothing in that place *)
| Visualization (view : option DataVisualization.View).
    (* [<DataVisualization data=... />]; [None] when it returns [null] *)

(** Both branches of [query_results.length === 1 ? ... : ...]; [chartType]
    is the state of the chart component the message owns. *)
Definition renderResults (chartType : ChartType) (query_results : list Row)
  : Attachment :=
  if Nat.eqb (List.length query_results) 1
  then
    let first := match at_ query_results 0 with Some row => row | None => [] end in
    ScalarText (at_ first 0) (at_ first 1)
  else Visualization (DataVisualization.render (Some query_results) chartType).

Record MessageView : Type := mkMessageView {
  alignedRight : bool;
  bubble : jsstring;
  attachment : option Attachment
}.

Definition isUser (t : MessageType) : bool :=
  match t with user => true | system => false end.

(** The body of [chatHistory.map((message) => ...)]. *)
Definition renderMessage (chartType : ChartType) (message : ChatMessage)
  : MessageView :=
  mkMessageView
    (isUser (type message))
    (content message)
    (match type message, responseData message with
     | system, Some data =>
         match query_results data with
         | Some rows => Some (renderResults chartType rows)
         | None => None
         end
     | _, _ => None
     end).

(** ** The rest of the [JourneyUI] page *)

(** [disabled={!userInput.trim()}] of the Send button. *)
Definition sendDisabled (s : State) : bool :=
  negb (JsString.truthy (JsString.trim (userInput s))).

(** [{isLoading && <div>Loading...</div>}] *)
Definition loadingShown (s : State) : bool := isLoading s.

(** ** The earlier chat page, [JourneyChat]

    It keeps no log: the last response is shown as text.  Its Submit button
    is [disabled={isLoading}]; a disabled button receives no click, so
    [handleSubmit] does not run while a request is pending. *)
Module JourneyChat.

Local Unset Elimination Schemes.

(** A value read by [response.json()]; [responseData] is typed [any]. *)
Inductive Json : Type :=
| JNull
| JBool (b : bool)
| JNum (n : Z)
| JStr (s : jsstring)
| JArr (items : list Json)
| JObj (fields : list (jsstring * Json)).

Local Set Elimination Schemes.

(** Truthiness of a parsed JSON value. *)
Definition truthy (v : Json) : bool :=
  match v with
  | JNull => false
  | JBool b => b
  | JNum n => negb (Z.eqb n 0)
  | JStr s => JsString.truthy s
  | JArr _ | JObj _ => true
  end.

Inductive FetchOutcome : Type :=
| Rejected
| Responded (status : Z) (body : option Json).

Record State : Type := mkState {
  userInput : jsstring;
  responseData : Json;
  isLoading : bool;
  inFlight : list jsstring
}.

Definition initialState : State := mkState [] JNull false [].

Definition setUserInput (v : jsstring) (s : State) : State :=
  mkState v (responseData s) (isLoading s) (inFlight s).

Definition setResponseData (v : Json) (s : State) : State :=
  mkState (userInput s) v (isLoading s) (inFlight s).

Definition setIsLoading (v : bool) (s : State) : State :=
  mkState (userInput s) (responseData s) v (inFlight s).

Definition setInFlight (v : list jsstring) (s : State) : State :=
  mkState (userInput s) (responseData s) (isLoading s) v.

Definition fetch (query : jsstring) (s : State) : State :=
  setInFlight (inFlight s ++ [query]) s.

(** [{ error: 'An error occurred. Please try again.' }] *)
Definition errorObject : Json := JObj [(js "error", JStr errorText)].

(** [callBackendAPI] up to its [await fetch(...)]. *)
Definition callBackendAPI_issue (input : jsstring) (s : State) : State :=
  fetch input (setIsLoading true s).

(** [callBackendAPI] once the request settles.  There is no test of
    [response.ok]: a body that can be read is stored whatever the status. *)
Definition callBackendAPI_settle (o : FetchOutcome) (s : State) : State :=
  let s :=
    match o with
    | Responded _ (Some data) => setResponseData data s
    | Responded _ None | Rejected => setResponseData errorObject s
    end in
  setIsLoading false s.

Definition handleSubmit (s : State) : State :=
  if JsString.truthy (JsString.trim (userInput s))
  then callBackendAPI_issue (userInput s) s
  else s.

Inductive Event : Type :=
| Change (value : jsstring)
| Click                                   (* on the Submit button *)
| Settle (k : nat) (o : FetchOutcome).

Definition step (e : Event) (s : State) : option State :=
  match e with
  | Change value => Some (setUserInput value s)
  | Click => if isLoading s then Some s else Some (handleSubmit s)
  | Settle k o =>
      match at_ (inFlight s) k with
      | None => None
      | Some _ =>
          Some (callBackendAPI_settle o (setInFlight (dropAt k (inFlight s)) s))
      end
  end.

Fixpoint run (es : list Event) (s : State) : option State :=
  match es with
  | [] => Some s
  | e :: es' =>
      match step e s with
      | Some s' => run es' s'
      | None => None
      end
  end.

(** [{isLoading ? 'Submitting...' : 'Submit'}] *)
Definition submitLabel (s : State) : jsstring :=
  if isLoading s then js "Submitting..." else js "Submit".


End JourneyChat.

(** ** The small widgets: [Tabs], [Button], [Input] *)

(** [`${x}`] for a string prop that may be left out. *)
Definition interpolate (x : option jsstring) : jsstring :=
  match x with
  | Some v => v
  | None => js "undefined"
  end.

Module Tabs.

(** [useState(defaultValue || '')] *)
Definition initialTab (defaultValue : option jsstring) : jsstring :=
  match defaultValue with
  | Some v => if JsString.truthy v then v else js ""
  | None => js ""
  end.

(** What [TabsTrigger] renders. *)
Record Trigger : Type := mkTrigger {
  ariaSelected : bool;
  className : jsstring
}.

Inductive Rendered : Type :=
| Thrown (message : jsstring)
| Drawn (button : Trigger).

(** [TabsTrigger]; [context] is the active tab of the enclosing [Tabs], or
    [None] outside of one. *)
Definition TabsTrigger (context : option jsstring) (value : jsstring)
           (cls : option jsstring) : Rendered :=
  match context with
  | None => Thrown (js "TabsTrigger must be used within a Tabs component")
  | Some activeTab =>
      let isActive := JsString.eqb activeTab value in
      Drawn (mkTrigger isActive
               (interpolate cls ++ js " "
                ++ (if isActive then js "active" else js "")))
  end.

(** [handleClick] of the trigger with [value]: the new active tab. *)
Definition handleClick (value : jsstring) (activeTab : jsstring) : jsstring :=
  value.

End Tabs.

Module Button.

Inductive Variant : Type := ghost | outline | solid.
Inductive Size : Type := sm | icon | lg.

Definition variantClasses (v : Variant) : jsstring :=
  match v with
  | ghost => js "bg-transparent text-green-500 border border-green-500"
  | outline => js "border-2 border-green-500 text-green-500"
  | solid => js "bg-green-500 text-white"
  end.

Definition sizeClasses (z : Size) : jsstring :=
  match z with
  | sm => js "text-sm py-2 px-4"
  | icon => js "p-2"
  | lg => js "text-lg py-3 px-6"
  end.

Record Rendered : Type := mkRendered {
  className : jsstring;
  disabled : bool
}.

(** [Button]; [disabledProp = None] takes the default [false]. *)
Definition Button (variant : Variant) (size : Size) (cls : option jsstring)
           (disabledProp : option bool) : Rendered :=
  mkRendered
    (variantClasses variant ++ js " " ++ sizeClasses size ++ js " rounded "
     ++ interpolate cls)
    (match disabledProp with Some b => b | None => false end).

End Button.

Module Input.

(** The [className] of the [<input>]: [`input ${className}`] *)
Definition className (cls : option jsstring) : jsstring :=
  js "input " ++ interpolate cls.

End Input.

(** The class names of a [class] attribute: its maximal runs of code units
    other than the space. *)
Fixpoint tokensFrom (current : jsstring) (s : jsstring) : list jsstring :=
  match s with
  | [] => match current with [] => [] | _ :: _ => [rev current] end
  | c :: s' =>
      if N.eqb c 32
      then match current with
           | [] => tokensFrom [] s'
           | _ :: _ => rev current :: tokensFrom [] s'
           end
      else tokensFrom (c :: current) s'
  end.

Definition tokens (s : jsstring) : list jsstring := tokensFrom [] s.

(** ** Counting and shape of the log *)

Definition users (log : list ChatMessage) : nat :=
  List.length (filter (fun m => isUser (type m)) log).

Definition systems (log : list ChatMessage) : nat :=
  List.length (filter (fun m => negb (isUser (type m))) log).

(** The three shapes a message of the log can have. *)
Inductive Shaped : ChatMessage -> Prop :=
| shaped_user (now : Z) (input : jsstring) :
    JsString.trim input <> [] ->
    Shaped (mkMessage now user input None)
| shaped_failure (now : Z) :
    Shaped (mkMessage now system errorText None)
| shaped_result (now : Z) (explanation : jsstring) (data : BackendResponse) :
    explanation <> [] ->
    nl_explanation data = Some explanation ->
    Shaped (mkMessage (now + 1) system explanation (Some data)).

(** Every beginning of the log holds at least as many user messages as
    system messages, and the whole log has a user message to spare for each
    request in flight. *)
Definition balanced (s : State) : Prop :=
  (forall n, systems (firstn n (chatHistory s)) <= users (firstn n (chatHistory s)))
  /\ systems (chatHistory s) + List.length (inFlight s) <= users (chatHistory s).

(** Either nothing is pending and the button is enabled, or exactly one
    request is pending and the button is disabled. *)
Definition settledOrBusy (s : JourneyChat.State) : Prop :=
  (JourneyChat.isLoading s = false /\ JourneyChat.inFlight s = [])
  \/ (JourneyChat.isLoading s = true
      /\ exists q, JourneyChat.inFlight s = [q] /\ JsString.trim q <> []).

(** ** Statement-side definitions *)

(** The outcomes on which [callBackendAPI] ends in its [catch] block: the
    request is rejected, the status is not a success, or the body cannot be
    read. *)
Definition reachesCatch (o : FetchOutcome) : bool :=
  match o with
  | Rejected => true
  | Responded status None => true
  | Responded status (Some _) => negb (ok status)
  end.

(** The system messages a settled request is expected to add to the log:
    the failure message on the outcomes above; otherwise the explanation
    with the response attached when the explanation is a non-empty string,
    and nothing when it is missing or empty. *)
Definition expectedReply (o : FetchOutcome) (now : Z) : list ChatMessage :=
  if reachesCatch o then [errorMessage now]
  else match o with
       | Responded _ (Some data) =>
           match nl_explanation data with
           | Some ((_ :: _) as explanation) => [systemMessage now explanation data]
           | _ => []
           end
       | _ => []
       end.

(** Which submission each piece of a run belongs to.  Submissions that issue
    a request are numbered from 0 in the order they are made; [owners] gives
    the number of each request in flight (parallel to [inFlight]) and
    [entries] holds every message the run appended to the log, in the order
    of the appends, each with the number of the submission whose code
    appended it. *)
Record Ledger : Type := mkLedger {
  owners : list nat;
  entries : list (nat * ChatMessage);
  submissions : nat
}.

Definition emptyLedger : Ledger := mkLedger [] [] 0.

(** The submission numbers of the entries, in order. *)
Definition tags (g : Ledger) : list nat := map fst (entries g).

(** The messages the log of [s'] has after those of the log of [s]. *)
Definition added (s s' : State) : list ChatMessage :=
  skipn (List.length (chatHistory s)) (chatHistory s').

(** Messages booked on submission [n]. *)
Definition book (n : nat) (ms : list ChatMessage) : list (nat * ChatMessage) :=
  map (pair n) ms.

(** The ledger after event [e] is handled in state [s]: the messages the
    event appended are booked on the submission whose code appended them. *)
Definition account (e : Event) (s : State) (g : Ledger) : Ledger :=
  match e with
  | Submit now =>
      let s' := handleSubmit now s in
      if Nat.ltb (List.length (inFlight s)) (List.length (inFlight s'))
      then mkLedger (owners g ++ [submissions g])
                    (entries g ++ book (submissions g) (added s s'))
                    (S (submissions g))
      else g
  | Settle k o now =>
      match at_ (owners g) k, step e s with
      | Some n, Some s' =>
          mkLedger (dropAt k (owners g)) (entries g ++ book n (added s s'))
                   (submissions g)
      | _, _ => g
      end
  | _ => g
  end.

(** The entries of a log made of one block of messages per submission:
    block 0 booked on submission [n], the next on [n + 1], and so on. *)
Fixpoint labelled (n : nat) (blocks : list (list ChatMessage))
  : list (nat * ChatMessage) :=
  match blocks with
  | [] => []
  | b :: bs => book n b ++ labelled (S n) bs
  end.

(** The messages of one submission when nothing else was pending: its user
    message, followed by its system message if it has one. *)
Definition isBlock (b : list ChatMessage) : Prop :=
  exists u, type u = user
            /\ (b = [u] \/ exists r, type r = system /\ b = [u; r]).

Fixpoint runTracked (es : list Event) (s : State) (g : Ledger)
  : option (State * Ledger) :=
  match es with
  | [] => Some (s, g)
  | e :: es' =>
      match step e s with
      | Some s' => runTracked es' s' (account e s g)
      | None => None
      end
  end.

(** Every submission that issues a request is made while none is in flight. *)
Fixpoint oneAtATime (es : list Event) (s : State) : bool :=
  match es with
  | [] => true
  | e :: es' =>
      match e with
      | Submit _ =>
          negb (JsString.truthy (JsString.trim (userInput s)))
          || match inFlight s with [] => true | _ :: _ => false end
      | _ => true
      end
      && match step e s with
         | Some s' => oneAtATime es' s'
         | None => true
         end
  end.

(** Later entries are never smaller than earlier ones. *)
Fixpoint nondecreasing (l : list nat) : Prop :=
  match l with
  | [] => True
  | x :: l' => Forall (fun y => x <= y) l' /\ nondecreasing l'
  end.

(** Later entries are greater than earlier ones. *)
Fixpoint increasing (l : list Z) : Prop :=
  match l with
  | [] => True
  | x :: l' => Forall (fun y => (x < y)%Z) l' /\ increasing l'
  end.

(** The [Date.now()] reading an event comes with, for the events whose
    handler reads the clock. *)
Definition clockOf (e : Event) : option Z :=
  match e with
  | Submit now | Settle _ _ now => Some now
  | _ => None
  end.

(** The clock readings of the events of [es] are at least [lo] and at least
    two milliseconds apart. *)
Fixpoint spaced (lo : Z) (es : list Event) : Prop :=
  match es with
  | [] => True
  | e :: es' =>
      match clockOf e with
      | Some now => (lo <= now)%Z /\ spaced (now + 2) es'
      | None => spaced lo es'
      end
  end.

(** [!data || data.length === 0] *)
Definition noRows (data : option (list Row)) : bool :=
  match data with
  | None => true
  | Some rows => Nat.eqb (List.length rows) 0
  end.

(** The dataset of the chart a component shows, if it shows one. *)
Definition shownData (v : option DataVisualization.View)
  : option (list DataVisualization.Point) :=
  option_map (fun v => DataVisualization.chartData (DataVisualization.chart v)) v.

(** What holds of a state and its ledger as long as submissions wait for the
    request in flight. *)
Record Orderly (s : State) (g : Ledger) : Prop := mkOrderly {
  owners_parallel : List.length (owners g) = List.length (inFlight s);
  booked_is_log : map snd (entries g) = chatHistory s;
  one_pending : List.length (inFlight s) <= 1;
  tags_ordered : nondecreasing (tags g);
  tags_known : Forall (fun t => t < submissions g) (tags g);
  owners_latest :
    Forall (fun n => n < submissions g /\ Forall (fun t => t <= n) (tags g))
           (owners g);
  blocks_known :
    exists blocks,
      entries g = labelled 0 blocks
      /\ Forall isBlock blocks
      /\ List.length blocks = submissions g
      /\ (owners g = []
          \/ exists bs u, blocks = bs ++ [[u]] /\ owners g = [List.length bs])
}.

(** ** Sanity checks of the model on the scenarios of the design notes *)

Definition avgSpeed : BackendResponse :=
  mkResponse (Some [[CStr (js "avg_speed"); CNum 42]])
             (Some (js "The average speed is 42.")) None.

Definition weekly : BackendResponse :=
  mkResponse (Some [[CStr (js "Mon"); CNum 3]; [CStr (js "Tue"); CNum 5];
                    [CStr (js "Wed"); CNum 2]])
             (Some (js "Totals per day.")) None.

Example scenario_scalar :
  option_map (fun s => map (renderMessage bar) (chatHistory s))
    (run [Change (js "average speed"); Submit 1000;
          Settle 0 (Responded 200 (Some avgSpeed)) 1250] initialState)
  = Some [mkMessageView true (js "average speed") None;
          mkMessageView false (js "The average speed is 42.")
            (Some (ScalarText (Some (CStr (js "avg_speed"))) (Some (CNum 42))))].
Proof. reflexivity. Qed.

Example scenario_series :
  option_map (DataVisualization.chartData)
    (option_map DataVisualization.chart
       (DataVisualization.render (query_results weekly) pie))
  = Some [DataVisualization.mkPoint (Some (CStr (js "Mon"))) (Some (CNum 3));
          DataVisualization.mkPoint (Some (CStr (js "Tue"))) (Some (CNum 5));
          DataVisualization.mkPoint (Some (CStr (js "Wed"))) (Some (CNum 2))].
Proof. reflexivity. Qed.

Example scenario_http_failure :
  option_map (fun s => map content (chatHistory s))
    (run [Change (js "bad query"); Submit 1000;
          Settle 0 (Responded 500 None) 1250] initialState)
  = Some [js "bad query"; errorText].
Proof. reflexivity. Qed.

Example failure_in_the_same_millisecond :
  option_map (fun s => map id (chatHistory s))
    (run [Change (js "q"); Submit 1000; Settle 0 Rejected 1000] initialState)
  = Some [1000; 1000]%Z.
Proof. reflexivity. Qed.

Example trim_examples :
  JsString.trim (js "  a b  ") = js "a b"
  /\ JsString.trim [9; 160; 8232; 65279]%N = []
  /\ JsString.trim (js "") = [].
Proof. repeat split; reflexivity. Qed.

Example by_column_example :
  DataVisualizationByColumn.transformedData [[CNum 1; CNum 2]; [CNum 3; CNum 4]] None
  = [[(js "name", Some (CStr (js "Column 1")));
      (js "Row 1", Some (CNum 1)); (js "Row 2", Some (CNum 3))];
     [(js "name", Some (CStr (js "Column 2")));
      (js "Row 1", Some (CNum 2)); (js "Row 2", Some (CNum 4))]].
Proof. reflexivity. Qed.

(** ** The controller: what a submission and its settlement add to the log *)

Section Controller.

Lemma truthy_true (x : jsstring) : JsString.truthy x = true <-> x <> [].
Proof.
  destruct x; simpl; split; intro H; congruence.
Qed.

Lemma truthy_false (x : jsstring) : JsString.truthy x = false <-> x = [].
Proof.
  destruct x; simpl; split; intro H; congruence.
Qed.

(** An accepted submission runs [callBackendAPI] on the input as typed. *)
Lemma handleSubmit_accepted (s : State) (now : Z) :
  JsString.trim (userInput s) <> [] ->
  handleSubmit now s = callBackendAPI_issue now (userInput s) s.
Proof.
  intro H. unfold handleSubmit.
  apply truthy_true in H. rewrite H. reflexivity.
Qed.

(** The log after a request settles, whatever the outcome. *)
Lemma settle_log (s s' : State) (k : nat) (o : FetchOutcome) (now : Z) :
  step (Settle k o now) s = Some s' ->
  chatHistory s' = chatHistory s ++ expectedReply o now.
Proof.
  unfold step. destruct (at_ (inFlight s) k) as [q|]; [|discriminate].
  intro H. injection H as <-.
  destruct o as [|status [data|]]; unfold expectedReply; simpl.
  - reflexivity.
  - destruct (ok status); simpl; [|reflexivity].
    unfold callBackendAPI_data.
    destruct (nl_explanation data) as [[|c e]|]; simpl;
      try reflexivity; symmetry; apply app_nil_r.
  - destruct (ok status); reflexivity.
Qed.

(** The settled request, and only it, leaves the requests in flight. *)
Lemma settle_inFlight (s s' : State) (k : nat) (o : FetchOutcome) (now : Z) :
  step (Settle k o now) s = Some s' ->
  k < List.length (inFlight s) /\ inFlight s' = dropAt k (inFlight s).
Proof.
  unfold step. destruct (at_ (inFlight s) k) as [q|] eqn:Hq; [|discriminate].
  intro H. injection H as <-. split.
  - apply nth_error_Some. unfold at_ in Hq. congruence.
  - destruct o as [|status [data|]]; simpl; try reflexivity.
    + destruct (ok status); simpl; [|reflexivity].
      unfold callBackendAPI_data.
      destruct (nl_explanation data) as [[|c e]|]; reflexivity.
    + destruct (ok status); reflexivity.
Qed.


Lemma expectedReply_length (o : FetchOutcome) (now : Z) :
  List.length (expectedReply o now) <= 1.
Proof.
  unfold expectedReply. destruct (reachesCatch o); simpl; [lia|].
  destruct o as [|status [data|]]; simpl; try lia.
  destruct (nl_explanation data) as [[|c e]|]; simpl; lia.
Qed.

Lemma expectedReply_system (o : FetchOutcome) (now : Z) :
  Forall (fun m => type m = system) (expectedReply o now).
Proof.
  unfold expectedReply. destruct (reachesCatch o); simpl.
  - constructor; [reflexivity | constructor].
  - destruct o as [|status [data|]]; simpl; try constructor.
    destruct (nl_explanation data) as [[|c e]|]; simpl; constructor;
      [reflexivity | constructor].
Qed.

End Controller.

(** C5.  When the trimmed input is empty, submitting changes nothing: the
    whole page state, and with it the message log and the list of requests
    in flight, is what it was, so no backend call is issued. *)
Theorem blank_submit_is_noop (s : State) (now : Z) :
  JsString.trim (userInput s) = [] ->
  step (Submit now) s = Some s
  /\ chatHistory (handleSubmit now s) = chatHistory s
  /\ inFlight (handleSubmit now s) = inFlight s.
Proof.
  intro H. unfold step, handleSubmit.
  rewrite H. simpl. repeat split; reflexivity.
Qed.

Lemma blank_submit_is_noop_witness :
  let s := setUserInput (js "   ") initialState in
  JsString.trim (userInput s) = []
  /\ step (Submit 1000) s = Some s
  /\ chatHistory (handleSubmit 1000 s) = chatHistory s
  /\ inFlight (handleSubmit 1000 s) = inFlight s.
Proof.
  split; [reflexivity | apply (blank_submit_is_noop (setUserInput (js "   ") initialState) 1000); reflexivity].
Defined.

(** C9, as stated, fails: the input "  hi  " is accepted and the user
    message appended for it holds the input as typed, which is not the
    trimmed text. *)
Lemma user_message_not_trimmed :
  let s := setUserInput (js "  hi  ") initialState in
  JsString.trim (userInput s) = js "hi"
  /\ exists m, chatHistory (handleSubmit 1000 s) = [m]
               /\ content m = js "  hi  "
               /\ content m <> JsString.trim (userInput s).
Proof.
  split; [reflexivity|].
  eexists. split; [reflexivity|]. split; [reflexivity|].
  vm_compute. discriminate.
Qed.

(** C9, amended.  For every accepted submission, the appended user message's
    text is the input as typed, untrimmed, and the backend call is issued
    with that same raw input; trimming only decides whether the submission
    is accepted. *)
Theorem accepted_submit_uses_raw_input (s : State) (now : Z) :
  JsString.trim (userInput s) <> [] ->
  exists m,
    chatHistory (handleSubmit now s) = chatHistory s ++ [m]
    /\ type m = user
    /\ content m = userInput s
    /\ inFlight (handleSubmit now s) = inFlight s ++ [userInput s].
Proof.
  intro H. rewrite (handleSubmit_accepted s now H).
  exists (userMessage now (userInput s)). repeat split; reflexivity.
Qed.

Lemma accepted_submit_uses_raw_input_witness :
  let s := setUserInput (js "  hi  ") initialState in
  exists m,
    chatHistory (handleSubmit 1000 s) = chatHistory s ++ [m]
    /\ type m = user
    /\ content m = userInput s
    /\ inFlight (handleSubmit 1000 s) = inFlight s ++ [userInput s].
Proof.
  apply (accepted_submit_uses_raw_input
           (setUserInput (js "  hi  ") initialState) 1000).
  vm_compute. discriminate.
Defined.




(** C2, as stated, fails: a response with a success status, an explanation
    and an [error] field yields the ordinary result message, with the
    explanation as its text and the response attached, not the failure
    message. *)
Lemma carried_error_is_not_a_failure :
  let data := mkResponse None (Some (js "All good.")) (Some (js "boom")) in
  exists s,
    run [Change (js "q"); Submit 1000;
         Settle 0 (Responded 200 (Some data)) 1250] initialState = Some s
    /\ chatHistory s = [userMessage 1000 (js "q");
                        systemMessage 1250 (js "All good.") data]
    /\ systemMessage 1250 (js "All good.") data <> errorMessage 1250.
Proof.
  eexists. split; [reflexivity|]. split; [reflexivity|].
  discriminate.
Qed.

(** C2, amended.  A response that completes with a success status is never
    answered with the failure message, whatever its [error] field holds:
    the field is not looked at.  The log gains the ordinary system message
    (explanation text, response attached) when the explanation is a
    non-empty string and nothing otherwise. *)
Theorem error_field_is_ignored (s s' : State) (k : nat) (status : Z)
        (data : BackendResponse) (now : Z) :
  ok status = true ->
  step (Settle k (Responded status (Some data)) now) s = Some s' ->
  exists reply,
    chatHistory s' = chatHistory s ++ reply
    /\ reply = match nl_explanation data with
               | Some ((_ :: _) as explanation) =>
                   [mkMessage (now + 1) system explanation (Some data)]
               | _ => []
               end
    /\ ~ In (errorMessage now) reply.
Proof.
  intros Hok Hstep.
  pose proof (settle_log _ _ _ _ _ Hstep) as Hlog.
  unfold expectedReply in Hlog. simpl in Hlog. rewrite Hok in Hlog.
  simpl in Hlog.
  eexists. split; [exact Hlog|]. split.
  - destruct (nl_explanation data) as [[|c e]|]; reflexivity.
  - destruct (nl_explanation data) as [[|c e]|]; simpl; try tauto.
    intros [Heq|[]]. discriminate Heq.
Qed.

Lemma error_field_is_ignored_witness :
  let data := mkResponse None (Some (js "All good.")) (Some (js "boom")) in
  let s := fetch (js "q") initialState in
  exists reply,
    chatHistory (handleSubmit_resume
                   (callBackendAPI_settle (Responded 200 (Some data)) 1250
                      (setInFlight [] s)))
      = chatHistory s ++ reply
    /\ reply = [mkMessage (1250 + 1) system (js "All good.") (Some data)]
    /\ ~ In (errorMessage 1250) reply.
Proof.
  exact (error_field_is_ignored (fetch (js "q") initialState) _ 0 200
           (mkResponse None (Some (js "All good.")) (Some (js "boom"))) 1250
           eq_refl eq_refl).
Defined.

(** C10.  When the backend call is rejected or throws, the system message
    appended for it carries no response data, and a message drawn without
    response data shows its text, the generic error text, and neither a
    scalar nor a chart. *)
Theorem failure_message_shows_text_only (s s' : State) (k : nat)
        (o : FetchOutcome) (now : Z) :
  reachesCatch o = true ->
  step (Settle k o now) s = Some s' ->
  exists m,
    chatHistory s' = chatHistory s ++ [m]
    /\ type m = system
    /\ responseData m = None
    /\ forall chartType,
         renderMessage chartType m = mkMessageView false errorText None.
Proof.
  intros Hcatch Hstep.
  pose proof (settle_log _ _ _ _ _ Hstep) as Hlog.
  unfold expectedReply in Hlog. rewrite Hcatch in Hlog.
  exists (errorMessage now). repeat split; auto.
Qed.

Lemma failure_message_shows_text_only_witness :
  let s := fetch (js "bad query") initialState in
  exists m,
    chatHistory (handleSubmit_resume
                   (callBackendAPI_settle (Responded 500 None) 1250
                      (setInFlight [] s)))
      = chatHistory s ++ [m]
    /\ type m = system
    /\ responseData m = None
    /\ forall chartType,
         renderMessage chartType m = mkMessageView false errorText None.
Proof.
  exact (failure_message_shows_text_only (fetch (js "bad query") initialState)
           _ 0 (Responded 500 None) 1250 eq_refl eq_refl).
Defined.

(** ** The result views *)

Lemma transformedData_length (rows : list Row) :
  List.length (DataVisualization.transformedData rows) = List.length rows.
Proof. apply length_map. Qed.

Lemma chartData_renderChart (t : ChartType) (d : list DataVisualization.Point) :
  DataVisualization.chartData (DataVisualization.renderChart t d) = d.
Proof. destruct t; reflexivity. Qed.

Lemma shownData_render (data : option (list Row)) (t : ChartType) :
  shownData (DataVisualization.render data t)
  = if noRows data then None
    else option_map DataVisualization.transformedData data.
Proof.
  destruct data as [[|row rows]|]; simpl; try reflexivity.
  unfold shownData. simpl. rewrite chartData_renderChart. reflexivity.
Qed.

(** C3.  A system message that carries query results draws, under its text:
    for exactly one row, the scalar text with the first cell of that row
    (column 0) as the heading and its second cell (column 1) as the figure;
    for more than one row, a chart whose points pair the first cell (name)
    with the second cell (value) of each row, as many points as rows and in
    the order of the rows; for no rows, nothing at all, the chart component
    returning null.  A cell the row is too short to have is undefined. *)
Theorem results_dispatch (chartType : ChartType) (rows : list Row)
        (i : Z) (text : jsstring) (explanation err : option jsstring) :
  attachment (renderMessage chartType
                (mkMessage i system text
                           (Some (mkResponse (Some rows) explanation err))))
    = Some (renderResults chartType rows)
  /\ match rows with
     | [] => renderResults chartType rows = Visualization None
     | [row] =>
         renderResults chartType rows
         = match row with
           | heading :: figure :: _ => ScalarText (Some heading) (Some figure)
           | [heading] => ScalarText (Some heading) None
           | [] => ScalarText None None
           end
     | _ :: _ :: _ =>
         exists view,
           renderResults chartType rows = Visualization (Some view)
           /\ DataVisualization.chartData (DataVisualization.chart view)
              = map (fun row =>
                       match row with
                       | first :: second :: _ =>
                           DataVisualization.mkPoint (Some first) (Some second)
                       | [first] => DataVisualization.mkPoint (Some first) None
                       | [] => DataVisualization.mkPoint None None
                       end)
                    rows
           /\ List.length
                (DataVisualization.chartData (DataVisualization.chart view))
              = List.length rows
     end.
Proof.
  split; [reflexivity|].
  destruct rows as [|r1 [|r2 rest]]; [reflexivity| |].
  - destruct r1 as [|a [|b r1]]; reflexivity.
  - eexists. split; [reflexivity|].
    cbn [DataVisualization.chart].
    rewrite chartData_renderChart.
    split.
    + unfold DataVisualization.transformedData. apply map_ext.
      intros [|a [|b row]]; reflexivity.
    + apply transformedData_length.
Qed.

(** C6.  Handed an undefined dataset or one with zero rows, the chart
    component returns null: no chart, no mode switch, and, the component
    being a total function here, no exception.  Both chart components of
    the repository behave so. *)
Theorem no_rows_renders_nothing (data : option (list Row))
        (labels : option (list jsstring)) (chartType : ChartType) :
  noRows data = true ->
  DataVisualization.render data chartType = None
  /\ DataVisualizationByColumn.render data labels chartType = None.
Proof.
  destruct data as [[|row rows]|]; simpl; intro H;
    try discriminate H; split; reflexivity.
Qed.

Lemma no_rows_renders_nothing_witness :
  noRows (Some []) = true
  /\ DataVisualization.render (Some []) pie = None
  /\ DataVisualizationByColumn.render (Some []) None pie = None.
Proof.
  split; [reflexivity|].
  apply (no_rows_renders_nothing (Some []) None pie). reflexivity.
Defined.

Lemma clicks_data (ts : list ChartType) (i : DataVisualization.Instance) :
  DataVisualization.data (DataVisualization.clicks ts i)
  = DataVisualization.data i.
Proof.
  revert i. induction ts as [|t ts IH]; intro i; simpl; [reflexivity|].
  unfold DataVisualization.clicks in IH. rewrite IH. reflexivity.
Qed.

Lemma last_cons_default {A} (l : list A) (x d d' : A) :
  last (x :: l) d = last (x :: l) d'.
Proof.
  revert x. induction l as [|y l IH]; intro x; [reflexivity|].
  change (last (y :: l) d = last (y :: l) d'). apply IH.
Qed.

Lemma clicks_chartType (ts : list ChartType) (i : DataVisualization.Instance) :
  DataVisualization.chartType (DataVisualization.clicks ts i)
  = last ts (DataVisualization.chartType i).
Proof.
  revert i. induction ts as [|t ts IH]; intro i; [reflexivity|].
  change (DataVisualization.clicks (t :: ts) i)
    with (DataVisualization.clicks ts (DataVisualization.setChartType t i)).
  rewrite IH. destruct ts as [|c ts]; [reflexivity|].
  change (last (t :: c :: ts) (DataVisualization.chartType i))
    with (last (c :: ts) (DataVisualization.chartType i)).
  apply last_cons_default.
Qed.

(** C7.  Whatever sequence of chart modes is selected on a mounted chart
    component, its dataset is the one it was mounted with and the points it
    draws are the ones drawn before any selection, the points derived from
    that dataset; the only thing the selections change is the selected mode,
    which is the last one clicked. *)
Theorem mode_switch_keeps_data (d : option (list Row)) (ts : list ChartType) :
  let before := DataVisualization.mount d in
  let after := DataVisualization.clicks ts before in
  DataVisualization.data after = d
  /\ DataVisualization.chartType after = last ts bar
  /\ shownData (DataVisualization.show after)
     = shownData (DataVisualization.show before)
  /\ shownData (DataVisualization.show after)
     = if noRows d then None
       else option_map DataVisualization.transformedData d.
Proof.
  intros before after. subst after.
  assert (Hd : DataVisualization.data (DataVisualization.clicks ts before) = d)
    by (rewrite clicks_data; reflexivity).
  split; [exact Hd|]. split; [apply clicks_chartType|].
  unfold DataVisualization.show. rewrite Hd.
  rewrite !shownData_render. split; reflexivity.
Qed.

(** ** Message ids *)

Section Ids.

Local Open Scope Z_scope.

Lemma increasing_snoc (l : list Z) (x : Z) :
  increasing l -> Forall (fun y => y < x) l -> increasing (l ++ [x]).
Proof.
  induction l as [|a l IH]; simpl; intros Hinc Hlt.
  - split; [constructor | exact I].
  - destruct Hinc as [Ha Hl]. inversion Hlt as [|? ? Hax Hlx]; subst.
    split.
    + apply Forall_app. split; [exact Ha|]. constructor; [exact Hax|constructor].
    + apply IH; assumption.
Qed.

(** What one event appends to the log: at most one message, none unless the
    handler reads the clock, and with an id that is the reading or the
    reading plus one. *)
Lemma step_appends (e : Event) (s s' : State) :
  step e s = Some s' ->
  exists l,
    chatHistory s' = chatHistory s ++ l
    /\ (List.length l <= 1)%nat
    /\ match clockOf e with
       | Some now => Forall (fun m => now <= id m < now + 2) l
       | None => l = []
       end.
Proof.
  destruct e as [v|now|k o now|tab|]; intro H.
  - injection H as <-. exists []. simpl. rewrite app_nil_r. auto.
  - injection H as <-. unfold handleSubmit.
    destruct (JsString.truthy (JsString.trim (userInput s))).
    + exists [userMessage now (userInput s)]. simpl.
      repeat split; auto. constructor; [simpl; lia | constructor].
    + exists []. simpl. rewrite app_nil_r. auto.
  - exists (expectedReply o now). split; [exact (settle_log _ _ _ _ _ H)|].
    split; [apply expectedReply_length|]. simpl.
    unfold expectedReply. destruct (reachesCatch o).
    + constructor; [simpl; lia | constructor].
    + destruct o as [|status [data|]]; try constructor.
      destruct (nl_explanation data) as [[|c x]|]; constructor;
        [simpl; lia | constructor].
  - injection H as <-. exists []. simpl. rewrite app_nil_r. auto.
  - injection H as <-. exists []. simpl. rewrite app_nil_r. auto.
Qed.

Lemma Forall_lt_weaken (l : list ChatMessage) (lo hi : Z) :
  lo <= hi -> Forall (fun m => id m < lo) l -> Forall (fun m => id m < hi) l.
Proof.
  intros Hle H. eapply Forall_impl; [|exact H]. simpl. intros m Hm. lia.
Qed.

Lemma spaced_run (es : list Event) :
  forall (lo : Z) (s s' : State),
    spaced lo es ->
    increasing (map id (chatHistory s)) ->
    Forall (fun m => id m < lo) (chatHistory s) ->
    run es s = Some s' ->
    increasing (map id (chatHistory s')).
Proof.
  induction es as [|e es IH]; intros lo s s' Hsp Hinc Hlo Hrun.
  - injection Hrun as <-. exact Hinc.
  - simpl in Hrun. destruct (step e s) as [s1|] eqn:Hstep; [|discriminate].
    destruct (step_appends _ _ _ Hstep) as (l & Hlog & Hlen & Hids).
    simpl in Hsp. destruct (clockOf e) as [now|].
    + destruct Hsp as [Hnow Hsp].
      apply (IH (now + 2) s1 s' Hsp); [| |exact Hrun]; rewrite Hlog.
      * destruct l as [|m [|m' l]]; [rewrite app_nil_r; exact Hinc| |simpl in Hlen; lia].
        rewrite map_app. apply increasing_snoc; [exact Hinc|].
        inversion Hids as [|? ? Hm _]; subst.
        apply Forall_map. eapply Forall_impl; [|exact Hlo].
        simpl. intros m0 Hm0. lia.
      * apply Forall_app. split.
        -- apply (Forall_lt_weaken _ lo); [lia | exact Hlo].
        -- eapply Forall_impl; [|exact Hids]. simpl. intros m Hm. lia.
    + subst l. rewrite app_nil_r in Hlog.
      apply (IH lo s1 s' Hsp); [| |exact Hrun]; rewrite Hlog; assumption.
Qed.

End Ids.

(** C8.  The code misses the claim on its failure path.  A submission made
    at clock reading [t] whose request is rejected while the clock still
    reads [t] logs two messages with the same id [t]: the [catch] block
    takes [Date.now()] as it is.  The success path, at the same readings,
    takes [Date.now() + 1] and keeps the ids strictly increasing. *)
Theorem failure_reply_repeats_the_id (input : jsstring) (t : Z) :
  JsString.trim input <> [] ->
  (exists s,
     run [Change input; Submit t; Settle 0 Rejected t] initialState = Some s
     /\ chatHistory s = [userMessage t input; errorMessage t]
     /\ map id (chatHistory s) = [t; t]
     /\ ~ increasing (map id (chatHistory s)))
  /\ (forall data explanation,
        nl_explanation data = Some explanation ->
        explanation <> [] ->
        exists s,
          run [Change input; Submit t; Settle 0 (Responded 200 (Some data)) t]
              initialState = Some s
          /\ map id (chatHistory s) = [t; (t + 1)%Z]
          /\ increasing (map id (chatHistory s))).
Proof.
  intro Htr.
  assert (Hsub : handleSubmit t (setUserInput input initialState)
                 = callBackendAPI_issue t input (setUserInput input initialState))
    by (apply (handleSubmit_accepted (setUserInput input initialState) t Htr)).
  split.
  - eexists. split.
    + cbn [run]. unfold step at 1. unfold step at 1. rewrite Hsub.
      reflexivity.
    + split; [reflexivity|]. split; [reflexivity|].
      simpl. intros [H _]. inversion H as [|? ? Hlt _]. lia.
  - intros data explanation He Hne.
    destruct explanation as [|c e]; [contradiction Hne; reflexivity|].
    eexists. split.
    + cbn [run]. unfold step at 1. unfold step at 1. rewrite Hsub.
      reflexivity.
    + simpl. unfold callBackendAPI_data. rewrite He. simpl.
      split; [reflexivity|].
      split; [|split; [constructor | exact I]].
      constructor; [lia | constructor].
Qed.

Lemma failure_reply_repeats_the_id_witness :
  exists s,
    run [Change (js "q"); Submit 1000; Settle 0 Rejected 1000] initialState
    = Some s
    /\ chatHistory s = [userMessage 1000 (js "q"); errorMessage 1000]
    /\ map id (chatHistory s) = [1000; 1000]%Z
    /\ ~ increasing (map id (chatHistory s)).
Proof.
  apply (failure_reply_repeats_the_id (js "q") 1000).
  vm_compute. discriminate.
Defined.

(** The same asymmetry with two requests in flight that settle one
    millisecond apart, the first with a result and the second with a
    failure: both system messages get the id 1006. *)
Lemma ids_can_repeat :
  let data := mkResponse None (Some (js "Done.")) None in
  exists s,
    run [Change (js "q"); Submit 1000; Submit 1001;
         Settle 0 (Responded 200 (Some data)) 1005;
         Settle 0 Rejected 1006] initialState = Some s
    /\ map id (chatHistory s) = [1000; 1001; 1006; 1006]%Z
    /\ ~ increasing (map id (chatHistory s)).
Proof.
  eexists. split; [vm_compute; reflexivity|].
  split; [vm_compute; reflexivity|].
  intro H. vm_compute in H. destruct H as (_ & _ & H & _).
  inversion H as [|? ? Hlt _]. discriminate Hlt.
Qed.

(** X19.  In every run whose clock readings are at least two milliseconds
    apart from one submit or settle event to the next, each message appended
    later has a strictly greater id than every message appended earlier. *)
Theorem ids_increase_when_spaced (es : list Event) (lo : Z) (s : State) :
  spaced lo es ->
  run es initialState = Some s ->
  increasing (map id (chatHistory s)).
Proof.
  intros Hsp Hrun.
  apply (spaced_run es lo initialState s Hsp); simpl; auto.
Qed.

Lemma ids_increase_when_spaced_witness :
  let data := mkResponse None (Some (js "Done.")) None in
  increasing [1000; 1006; 1007; 1009]%Z.
Proof.
  intro data.
  apply (ids_increase_when_spaced
           [Change (js "q"); Submit 1000;
            Settle 0 (Responded 200 (Some data)) 1005;
            Change (js "q"); Submit 1007; Settle 0 Rejected 1009]
           0
           (mkState [] (Some (mkResponse None None (Some errorText))) false
                    (js "book") false
                    [userMessage 1000 (js "q"); systemMessage 1005 (js "Done.") data;
                     userMessage 1007 (js "q"); errorMessage 1009] [])).
  - simpl. lia.
  - vm_compute. reflexivity.
Defined.

(** ** Pending cycles and the order of the log *)

Section Ordering.

Lemma nondecreasing_app_repeat (l : list nat) (n j : nat) :
  nondecreasing l -> Forall (fun t => t <= n) l ->
  nondecreasing (l ++ repeat n j).
Proof.
  induction l as [|a l IH]; simpl; intros Hnd Hle.
  - clear. induction j as [|j IHj]; simpl; [exact I|].
    split; [|exact IHj].
    apply Forall_forall. intros y Hy. apply repeat_spec in Hy. lia.
  - destruct Hnd as [Ha Hl]. inversion Hle as [|? ? Han Hln]; subst.
    split; [|apply IH; assumption].
    apply Forall_app. split; [exact Ha|].
    apply Forall_forall. intros y Hy. apply repeat_spec in Hy. lia.
Qed.

Lemma Forall_app_repeat (P : nat -> Prop) (l : list nat) (n j : nat) :
  Forall P l -> P n -> Forall P (l ++ repeat n j).
Proof.
  intros Hl Hn. apply Forall_app. split; [exact Hl|].
  apply Forall_forall. intros y Hy. apply repeat_spec in Hy. subst. exact Hn.
Qed.

(** When the log of [s'] is the log of [s] followed by [l], the messages
    added from [s] to [s'] are [l]. *)
Lemma added_app (s s' : State) (l : list ChatMessage) :
  chatHistory s' = chatHistory s ++ l -> added s s' = l.
Proof.
  intro H. unfold added. rewrite H, skipn_app, skipn_all, Nat.sub_diag.
  reflexivity.
Qed.

Lemma fst_app_book (es : list (nat * ChatMessage)) (n : nat)
      (l : list ChatMessage) :
  map fst (es ++ book n l) = map fst es ++ repeat n (List.length l).
Proof.
  rewrite map_app. f_equal. unfold book. rewrite map_map. simpl.
  induction l as [|m l IH]; simpl; [reflexivity | rewrite IH; reflexivity].
Qed.

Lemma snd_app_book (es : list (nat * ChatMessage)) (n : nat)
      (l : list ChatMessage) :
  map snd (es ++ book n l) = map snd es ++ l.
Proof.
  rewrite map_app. f_equal. unfold book. rewrite map_map. simpl.
  apply map_id.
Qed.

Lemma labelled_app (bs cs : list (list ChatMessage)) :
  forall n, labelled n (bs ++ cs)
            = labelled n bs ++ labelled (n + List.length bs) cs.
Proof.
  induction bs as [|b bs IH]; intro n; simpl.
  - rewrite Nat.add_0_r. reflexivity.
  - rewrite IH, <- app_assoc. do 3 f_equal. lia.
Qed.

Lemma orderly_start : Orderly initialState emptyLedger.
Proof.
  constructor; simpl; auto.
  exists []. simpl. auto.
Qed.

Lemma orderly_submit (s : State) (g : Ledger) (now : Z) :
  Orderly s g ->
  (negb (JsString.truthy (JsString.trim (userInput s)))
   || match inFlight s with [] => true | _ :: _ => false end) = true ->
  Orderly (handleSubmit now s) (account (Submit now) s g).
Proof.
  intros [Hown Hbook Hone Hord Hknown Hlatest Hblocks] Hguard.
  unfold account, handleSubmit.
  destruct (JsString.truthy (JsString.trim (userInput s))) eqn:Htr.
  - simpl in Hguard. destruct (inFlight s) as [|q qs] eqn:Hfl; [|discriminate].
    destruct (owners g) as [|n ns] eqn:Hog; [|discriminate].
    set (s1 := callBackendAPI_issue now (userInput s) s).
    set (u := userMessage now (userInput s)).
    assert (Hin : inFlight s1 = [userInput s])
      by (unfold s1; simpl; rewrite Hfl; reflexivity).
    assert (Hch : chatHistory s1 = chatHistory s ++ [u]) by reflexivity.
    pose proof (added_app s s1 [u] Hch) as Hadd.
    rewrite Hin, Hadd. clearbody s1. cbn [List.length Nat.ltb Nat.leb].
    destruct Hblocks as (blocks & Hent & Hall & Hlen & _).
    constructor; unfold tags; cbn [owners entries submissions].
    + rewrite Hin. reflexivity.
    + rewrite snd_app_book, Hbook, Hch. reflexivity.
    + rewrite Hin. simpl. lia.
    + rewrite fst_app_book.
      apply (nondecreasing_app_repeat (tags g) (submissions g) 1 Hord).
      eapply Forall_impl; [|exact Hknown]. simpl. intros; lia.
    + rewrite fst_app_book. apply Forall_app. split.
      * eapply Forall_impl; [|exact Hknown]. simpl. intros; lia.
      * constructor; [lia | constructor].
    + constructor; [|constructor]. split; [lia|].
      rewrite fst_app_book. apply Forall_app. split.
      * eapply Forall_impl; [|exact Hknown]. simpl. intros; lia.
      * constructor; [lia | constructor].
    + exists (blocks ++ [[u]]). split; [|split; [|split]].
      * rewrite labelled_app, Hent, Hlen. reflexivity.
      * apply Forall_app. split; [exact Hall|].
        constructor; [|constructor]. exists u. split; [reflexivity|].
        left. reflexivity.
      * rewrite length_app, Hlen. simpl. lia.
      * right. exists blocks, u. rewrite Hlen. split; reflexivity.
  - rewrite Nat.ltb_irrefl.
    constructor; assumption.
Qed.

Lemma orderly_settle (s s' : State) (g : Ledger) (k : nat) (o : FetchOutcome)
      (now : Z) :
  Orderly s g ->
  step (Settle k o now) s = Some s' ->
  Orderly s' (account (Settle k o now) s g).
Proof.
  intros [Hown Hbook Hone Hord Hknown Hlatest Hblocks] Hstep.
  pose proof (settle_log _ _ _ _ _ Hstep) as Hlog.
  destruct (settle_inFlight _ _ _ _ _ Hstep) as [Hk Hfl'].
  pose proof (added_app s s' _ Hlog) as Hadd.
  unfold account. rewrite Hstep. clear Hstep.
  destruct (inFlight s) as [|q [|q' qs]] eqn:Hfl; simpl in Hone, Hk; [lia| |lia].
  destruct (owners g) as [|n [|n' ns]] eqn:Hog; try discriminate Hown.
  assert (k = 0) by lia. subst k. simpl in Hfl'. simpl at_. cbv iota.
  rewrite Hadd. simpl dropAt.
  inversion Hlatest as [|? ? [Hn Hle] _]; subst.
  destruct Hblocks as (blocks & Hent & Hall & Hlen & Hlast).
  destruct Hlast as [Hnil|(bs & u & Hbs & Hn')]; [discriminate Hnil|].
  injection Hn' as Hn'.
  constructor; unfold tags; cbn [owners entries submissions].
  - rewrite Hfl'. reflexivity.
  - rewrite snd_app_book, Hbook, Hlog. reflexivity.
  - rewrite Hfl'. simpl. lia.
  - rewrite fst_app_book. apply nondecreasing_app_repeat; assumption.
  - rewrite fst_app_book. apply Forall_app_repeat; assumption.
  - constructor.
  - exists (bs ++ [u :: expectedReply o now]).
    subst blocks. apply Forall_app in Hall. destruct Hall as [Hbsall Hu].
    split; [|split; [|split]].
    + rewrite Hent, !labelled_app. simpl. rewrite !app_nil_r.
      rewrite <- app_assoc. subst n. reflexivity.
    + apply Forall_app. split; [exact Hbsall|].
      constructor; [|constructor].
      inversion Hu as [|? ? (u' & Hu' & Hshape) _]; subst.
      assert (u' = u) as ->.
      { destruct Hshape as [H|(r & _ & H)]; congruence. }
      exists u. split; [exact Hu'|].
      pose proof (expectedReply_length o now) as Hl.
      pose proof (expectedReply_system o now) as Hs.
      destruct (expectedReply o now) as [|r [|r' l]];
        [left; reflexivity | | simpl in Hl; lia].
      right. exists r. inversion Hs; subst. split; [assumption|reflexivity].
    + rewrite <- Hlen, !length_app. reflexivity.
    + left. reflexivity.
Qed.

Lemma orderly_step (e : Event) (s s' : State) (g : Ledger) :
  Orderly s g ->
  oneAtATime [e] s = true ->
  step e s = Some s' ->
  Orderly s' (account e s g).
Proof.
  intros Hinv Hguard Hstep.
  destruct e as [v|now|k o now|tab|].
  - injection Hstep as <-. destruct Hinv. constructor; assumption.
  - injection Hstep as <-. apply orderly_submit; [exact Hinv|].
    simpl in Hguard. apply andb_prop in Hguard. tauto.
  - eapply orderly_settle; eassumption.
  - injection Hstep as <-. destruct Hinv. constructor; assumption.
  - injection Hstep as <-. destruct Hinv. constructor; assumption.
Qed.

Lemma orderly_run (es : list Event) :
  forall (s s' : State) (g g' : Ledger),
    Orderly s g ->
    oneAtATime es s = true ->
    runTracked es s g = Some (s', g') ->
    Orderly s' g'.
Proof.
  induction es as [|e es IH]; intros s s' g g' Hinv Hguard Hrun.
  - injection Hrun as <- <-. exact Hinv.
  - simpl in Hrun, Hguard.
    destruct (step e s) as [s1|] eqn:Hstep; [|discriminate].
    apply andb_prop in Hguard. destruct Hguard as [He Hes].
    apply (IH s1 s' (account e s g) g'); [|exact Hes|exact Hrun].
    apply orderly_step; [exact Hinv| |exact Hstep].
    simpl. rewrite He, Hstep. reflexivity.
Qed.

Lemma oneAtATime_prefix (es1 es2 : list Event) :
  forall (s : State),
    oneAtATime (es1 ++ es2) s = true -> oneAtATime es1 s = true.
Proof.
  induction es1 as [|e es1 IH]; intros s H; [reflexivity|].
  simpl in *. apply andb_prop in H. destruct H as [He Hes].
  rewrite He. simpl. destruct (step e s) as [s1|]; [|reflexivity].
  apply IH. exact Hes.
Qed.

End Ordering.

(** C4, as stated, fails: nothing makes a submission wait.  A second
    submission made while the first request is in flight is issued at once,
    so two cycles are pending together, and when the second request settles
    first the log reads: first question, second question, second answer,
    first answer.  Messages of submission 1 stand before the system message
    of submission 0. *)
Lemma pending_cycles_interleave :
  let answer1 := Responded 200 (Some (mkResponse None (Some (js "answer 1")) None)) in
  let answer2 := Responded 200 (Some (mkResponse None (Some (js "answer 2")) None)) in
  let asked := [Change (js "first"); Submit 1000;
                Change (js "second"); Submit 1100] in
  exists s g s' g',
    runTracked asked initialState emptyLedger = Some (s, g)
    /\ inFlight s = [js "first"; js "second"]
    /\ runTracked (asked ++ [Settle 1 answer2 1200; Settle 0 answer1 1300])
                  initialState emptyLedger = Some (s', g')
    /\ map content (chatHistory s')
       = [js "first"; js "second"; js "answer 2"; js "answer 1"]
    /\ map snd (entries g') = chatHistory s'
    /\ tags g' = [0; 1; 1; 0]
    /\ ~ nondecreasing (tags g').
Proof.
  do 4 eexists.
  split; [vm_compute; reflexivity|].
  split; [vm_compute; reflexivity|].
  split; [vm_compute; reflexivity|].
  split; [vm_compute; reflexivity|].
  split; [vm_compute; reflexivity|].
  split; [vm_compute; reflexivity|].
  intro H. vm_compute in H. destruct H as (_ & H & _).
  inversion H as [|? ? _ H']. inversion H' as [|? ? Hle _].
  inversion Hle.
Qed.

(** C4, amended.  The controller neither queues nor rejects a submission
    made while a request is pending: whatever is in flight, an accepted
    submission logs its user message and issues its request at once, and a
    request that settles has its reply put at the end of the log as it then
    stands, so replies are logged in the order the requests settle.  In a
    run where every submission that issues a request is made while none is
    pending, at every moment at most one cycle is pending, and the log is,
    message for message, the blocks of the submissions one after the other
    in submission order, each block being that submission's user message
    followed by its system message if it has one: the messages of each
    submission stand before every message of the submissions after it. *)
Theorem one_at_a_time_keeps_order (es1 es2 : list Event) (s : State)
        (g : Ledger) :
  oneAtATime (es1 ++ es2) initialState = true ->
  runTracked es1 initialState emptyLedger = Some (s, g) ->
  (forall s0 now,
     JsString.trim (userInput s0) <> [] ->
     inFlight (handleSubmit now s0) = inFlight s0 ++ [userInput s0]
     /\ chatHistory (handleSubmit now s0)
        = chatHistory s0 ++ [userMessage now (userInput s0)])
  /\ (forall s0 k o now s1,
        step (Settle k o now) s0 = Some s1 ->
        chatHistory s1 = chatHistory s0 ++ expectedReply o now
        /\ inFlight s1 = dropAt k (inFlight s0))
  /\ List.length (inFlight s) <= 1
  /\ map snd (entries g) = chatHistory s
  /\ nondecreasing (map fst (entries g))
  /\ exists blocks,
       entries g = labelled 0 blocks
       /\ Forall isBlock blocks
       /\ List.length blocks = submissions g.
Proof.
  intros Hguard Hrun.
  apply oneAtATime_prefix in Hguard.
  destruct (orderly_run es1 initialState s emptyLedger g
              orderly_start Hguard Hrun)
    as [_ Hbook Hone Hord _ _ (blocks & Hent & Hall & Hlen & _)].
  split; [|split; [|split; [|split; [|split]]]].
  - intros s0 now Htr. rewrite (handleSubmit_accepted s0 now Htr).
    split; reflexivity.
  - intros s0 k o now s1 Hstep. split.
    + exact (settle_log _ _ _ _ _ Hstep).
    + exact (proj2 (settle_inFlight _ _ _ _ _ Hstep)).
  - exact Hone.
  - exact Hbook.
  - exact Hord.
  - exists blocks. auto.
Qed.

Lemma one_at_a_time_keeps_order_witness :
  let answer := Responded 200 (Some (mkResponse None (Some (js "answer")) None)) in
  exists s g,
    runTracked [Change (js "first"); Submit 1000; Settle 0 answer 1200;
                Change (js "second"); Submit 1300]
               initialState emptyLedger = Some (s, g)
    /\ map (fun e => (fst e, content (snd e))) (entries g)
       = [(0, js "first"); (0, js "answer"); (1, js "second")]
    /\ List.length (inFlight s) <= 1
    /\ map snd (entries g) = chatHistory s
    /\ nondecreasing (map fst (entries g)).
Proof.
  intro answer.
  destruct (runTracked [Change (js "first"); Submit 1000; Settle 0 answer 1200;
                        Change (js "second"); Submit 1300]
                       initialState emptyLedger) as [[s g]|] eqn:Hrun;
    [|vm_compute in Hrun; discriminate Hrun].
  exists s, g. split; [reflexivity|]. split.
  - vm_compute in Hrun. injection Hrun as <- <-. reflexivity.
  - destruct (one_at_a_time_keeps_order
                [Change (js "first"); Submit 1000; Settle 0 answer 1200;
                 Change (js "second"); Submit 1300]
                [Settle 0 Rejected 1400] s g)
      as (_ & _ & Hone & Hlog & Hord & _).
    + vm_compute. reflexivity.
    + exact Hrun.
    + split; [exact Hone|]. split; [exact Hlog | exact Hord].
Defined.

(** ** Further properties of the [JourneyUI] controller *)

Section Reachable.

(** What one event does to the log, the requests in flight and the flags. *)
Lemma step_cases (e : Event) (s s' : State) :
  step e s = Some s' ->
  (chatHistory s' = chatHistory s /\ inFlight s' = inFlight s
   /\ isLoading s' = isLoading s)
  \/ (exists now,
        JsString.trim (userInput s) <> []
        /\ chatHistory s' = chatHistory s ++ [userMessage now (userInput s)]
        /\ inFlight s' = inFlight s ++ [userInput s]
        /\ isLoading s' = true)
  \/ (exists k o now,
        k < List.length (inFlight s)
        /\ chatHistory s' = chatHistory s ++ expectedReply o now
        /\ inFlight s' = dropAt k (inFlight s)
        /\ isLoading s' = false
        /\ userInput s' = []).
Proof.
  destruct e as [v|now|k o now|tab|]; intro H.
  - injection H as <-. left. auto.
  - injection H as <-. unfold handleSubmit.
    destruct (JsString.truthy (JsString.trim (userInput s))) eqn:Htr.
    + right. left. exists now. apply truthy_true in Htr. auto.
    + left. auto.
  - right. right. exists k, o, now.
    destruct (settle_inFlight _ _ _ _ _ H) as [Hk Hfl].
    split; [exact Hk|]. split; [exact (settle_log _ _ _ _ _ H)|].
    split; [exact Hfl|].
    unfold step in H. destruct (at_ (inFlight s) k); [|discriminate].
    injection H as <-. split; reflexivity.
  - injection H as <-. left. auto.
  - injection H as <-. left. auto.
Qed.

(** A property that holds at the start and is kept by every event holds
    after every run. *)
Lemma run_invariant (P : State -> Prop) :
  (forall e s s', P s -> step e s = Some s' -> P s') ->
  forall es s s', P s -> run es s = Some s' -> P s'.
Proof.
  intros Hstep es. induction es as [|e es IH]; intros s s' Hs Hrun.
  - injection Hrun as <-. exact Hs.
  - simpl in Hrun. destruct (step e s) as [s1|] eqn:He; [|discriminate].
    apply (IH s1 s'); [|exact Hrun]. apply (Hstep e s s1 Hs He).
Qed.

Lemma dropAt_length {A} (k : nat) (l : list A) :
  k < List.length l -> S (List.length (dropAt k l)) = List.length l.
Proof.
  revert k. induction l as [|x l IH]; intros k Hk; simpl in *; [lia|].
  destruct k as [|k]; simpl; [reflexivity|].
  rewrite IH by lia. reflexivity.
Qed.

Lemma dropAt_In {A} (k : nat) (l : list A) (x : A) :
  In x (dropAt k l) -> In x l.
Proof.
  revert k. induction l as [|y l IH]; intros k H;
    [destruct k; exact H|].
  destruct k as [|k]; simpl in H; [right; exact H|].
  destruct H as [H|H]; [left; exact H | right; exact (IH k H)].
Qed.

Lemma users_app (a b : list ChatMessage) : users (a ++ b) = users a + users b.
Proof. unfold users. rewrite filter_app, length_app. reflexivity. Qed.

Lemma systems_app (a b : list ChatMessage) :
  systems (a ++ b) = systems a + systems b.
Proof. unfold systems. rewrite filter_app, length_app. reflexivity. Qed.

Lemma expectedReply_counts (o : FetchOutcome) (now : Z) :
  users (expectedReply o now) = 0 /\ systems (expectedReply o now) <= 1.
Proof.
  unfold expectedReply. destruct (reachesCatch o); [simpl; auto|].
  destruct o as [|status [data|]]; simpl; auto.
  destruct (nl_explanation data) as [[|c e]|]; simpl; auto.
Qed.

Lemma expectedReply_shaped (o : FetchOutcome) (now : Z) :
  Forall Shaped (expectedReply o now).
Proof.
  unfold expectedReply. destruct (reachesCatch o).
  - constructor; [apply shaped_failure | constructor].
  - destruct o as [|status [data|]]; try apply Forall_nil.
    destruct (nl_explanation data) as [[|c e]|] eqn:He; try apply Forall_nil.
    apply Forall_cons; [|apply Forall_nil].
    apply shaped_result; [discriminate | exact He].
Qed.

End Reachable.

(** X1.  The log only grows: whatever happens on the page, the messages logged
    before are still there afterwards, unchanged and in the same places. *)
Theorem log_is_append_only (es : list Event) (s s' : State) :
  run es s = Some s' ->
  exists added, chatHistory s' = chatHistory s ++ added.
Proof.
  revert s. induction es as [|e es IH]; intros s Hrun.
  - injection Hrun as <-. exists []. symmetry. apply app_nil_r.
  - simpl in Hrun. destruct (step e s) as [s1|] eqn:He; [|discriminate].
    destruct (IH s1 Hrun) as [added Hadded].
    destruct (step_cases _ _ _ He)
      as [(Hlog & _)|[(now & _ & Hlog & _)|(k & o & now & _ & Hlog & _)]];
      rewrite Hadded, Hlog; try rewrite <- app_assoc; eexists; reflexivity.
Qed.

Lemma log_is_append_only_witness :
  exists added,
    chatHistory (handleSubmit 1000 (setUserInput (js "q") initialState))
    = chatHistory initialState ++ added.
Proof.
  apply (log_is_append_only [Change (js "q"); Submit 1000] initialState).
  reflexivity.
Defined.

(** X2.  In every state the page can reach, the system messages of the log plus
    the requests still in flight are no more than the user messages: a
    system message is only ever logged for a request that a logged user
    message started. *)
Theorem replies_never_outnumber_questions (es : list Event) (s : State) :
  run es initialState = Some s ->
  systems (chatHistory s) + List.length (inFlight s) <= users (chatHistory s).
Proof.
  intro Hrun.
  refine (run_invariant
            (fun s => systems (chatHistory s) + List.length (inFlight s)
                      <= users (chatHistory s)) _ es initialState s _ Hrun);
    [|simpl; lia].
  clear. intros e s s' Hinv Hstep.
  destruct (step_cases _ _ _ Hstep)
    as [(Hlog & Hfl & _)|[(now & _ & Hlog & Hfl & _)
                         |(k & o & now & Hk & Hlog & Hfl & _)]].
  - rewrite Hlog, Hfl. exact Hinv.
  - rewrite Hlog, Hfl, users_app, systems_app, length_app. simpl.
    change (systems [userMessage now (userInput s)]) with 0.
    change (users [userMessage now (userInput s)]) with 1.
    lia.
  - rewrite Hlog, users_app, systems_app.
    destruct (expectedReply_counts o now) as [Hu Hs].
    pose proof (dropAt_length k (inFlight s) Hk) as Hlen.
    rewrite Hfl. lia.
Qed.

Lemma replies_never_outnumber_questions_witness :
  systems [userMessage 1000 (js "q"); errorMessage 1250] + 0
  <= users [userMessage 1000 (js "q"); errorMessage 1250].
Proof.
  apply (replies_never_outnumber_questions
           [Change (js "q"); Submit 1000; Settle 0 Rejected 1250]
           (mkState [] (Some (mkResponse None None (Some errorText))) false
                    (js "book") false
                    [userMessage 1000 (js "q"); errorMessage 1250] [])).
  vm_compute. reflexivity.
Defined.

(** X3.  Every message the page logs has one of three shapes: a user message
    with a text that is not blank and no response attached; the failure
    message with the generic error text and no response attached; or a
    system message whose text is the non-empty explanation of the response
    attached to it.  So no bubble of the log is ever empty. *)
Theorem log_messages_are_shaped (es : list Event) (s : State) :
  run es initialState = Some s ->
  Forall Shaped (chatHistory s)
  /\ Forall (fun m => content m <> []) (chatHistory s).
Proof.
  intro Hrun.
  assert (H : Forall Shaped (chatHistory s)).
  { refine (run_invariant (fun s => Forall Shaped (chatHistory s))
                           _ es initialState s _ Hrun);
      [|constructor].
    clear. intros e s s' Hinv Hstep.
    destruct (step_cases _ _ _ Hstep)
      as [(Hlog & _)|[(now & Htr & Hlog & _)|(k & o & now & _ & Hlog & _)]];
      rewrite Hlog; try exact Hinv; apply Forall_app; split; try exact Hinv.
    - constructor; [|constructor]. apply shaped_user. exact Htr.
    - apply expectedReply_shaped. }
  split; [exact H|].
  eapply Forall_impl; [|exact H].
  intros m Hm. destruct Hm as [now input Htr|now|now e data He _]; simpl.
  - intro Heq. subst input. apply Htr. reflexivity.
  - vm_compute. discriminate.
  - exact He.
Qed.

Lemma log_messages_are_shaped_witness :
  Forall Shaped [userMessage 1000 (js "q"); errorMessage 1250]
  /\ Forall (fun m => content m <> [])
            [userMessage 1000 (js "q"); errorMessage 1250].
Proof.
  apply (log_messages_are_shaped
           [Change (js "q"); Submit 1000; Settle 0 Rejected 1250]
           (mkState [] (Some (mkResponse None None (Some errorText))) false
                    (js "book") false
                    [userMessage 1000 (js "q"); errorMessage 1250] [])).
  vm_compute. reflexivity.
Defined.

Section Balance.

Lemma systems_firstn (j : nat) (l : list ChatMessage) :
  systems (firstn j l) <= systems l.
Proof.
  rewrite <- (firstn_skipn j l) at 2. rewrite systems_app. lia.
Qed.

Lemma users_firstn_reply (j : nat) (o : FetchOutcome) (now : Z) :
  users (firstn j (expectedReply o now)) = 0.
Proof.
  destruct (expectedReply_counts o now) as [Hu _].
  assert (H : users (firstn j (expectedReply o now))
              <= users (expectedReply o now)).
  { rewrite <- (firstn_skipn j (expectedReply o now)) at 2.
    rewrite users_app. lia. }
  lia.
Qed.

Lemma balanced_step (e : Event) (s s' : State) :
  balanced s -> step e s = Some s' -> balanced s'.
Proof.
  intros [Hpre Htot] Hstep. unfold balanced.
  destruct (step_cases _ _ _ Hstep)
    as [(Hlog & Hfl & _)|[(now & _ & Hlog & Hfl & _)
                         |(k & o & now & Hk & Hlog & Hfl & _)]].
  - rewrite Hlog, Hfl. split; assumption.
  - rewrite Hlog, Hfl. split.
    + intro n. rewrite firstn_app, users_app, systems_app.
      specialize (Hpre n).
      assert (systems (firstn (n - List.length (chatHistory s))
                              [userMessage now (userInput s)]) = 0)
        by (destruct (n - List.length (chatHistory s)) as [|[|j]]; reflexivity).
      lia.
    + rewrite users_app, systems_app, length_app.
      change (systems [userMessage now (userInput s)]) with 0.
      change (users [userMessage now (userInput s)]) with 1.
      simpl. lia.
  - pose proof (dropAt_length k (inFlight s) Hk) as Hlen.
    destruct (expectedReply_counts o now) as [Hu Hs].
    rewrite Hlog, Hfl. split.
    + intro n. rewrite firstn_app, users_app, systems_app.
      rewrite users_firstn_reply.
      pose proof (systems_firstn (n - List.length (chatHistory s))
                                 (expectedReply o now)) as Hj.
      destruct (Nat.le_gt_cases n (List.length (chatHistory s))) as [Hn|Hn].
      * replace (n - List.length (chatHistory s)) with 0 by lia.
        specialize (Hpre n). simpl. change (systems []) with 0. lia.
      * rewrite firstn_all2 by lia. lia.
    + rewrite users_app, systems_app. lia.
Qed.

End Balance.

(** X4.  At every point of the log, the user messages so far are at least as many
    as the system messages so far; in particular a log that is not empty
    begins with a user message. *)
Theorem questions_come_first (es : list Event) (s : State) :
  run es initialState = Some s ->
  (forall n,
     systems (firstn n (chatHistory s)) <= users (firstn n (chatHistory s)))
  /\ (forall m rest, chatHistory s = m :: rest -> type m = user).
Proof.
  intro Hrun.
  assert (H : balanced s).
  { refine (run_invariant balanced balanced_step es initialState s _ Hrun).
    split; [intro n; destruct n; apply Nat.le_refl | apply Nat.le_refl]. }
  destruct H as [Hpre _]. split; [exact Hpre|].
  intros m rest Hlog. specialize (Hpre 1). rewrite Hlog in Hpre.
  destruct m as [i [|] c r]; [reflexivity|].
  unfold systems, users in Hpre. simpl in Hpre. lia.
Qed.

Lemma questions_come_first_witness :
  (forall n,
     systems (firstn n [userMessage 1000 (js "q"); errorMessage 1250])
     <= users (firstn n [userMessage 1000 (js "q"); errorMessage 1250]))
  /\ (forall m rest,
        [userMessage 1000 (js "q"); errorMessage 1250] = m :: rest ->
        type m = user).
Proof.
  apply (questions_come_first
           [Change (js "q"); Submit 1000; Settle 0 Rejected 1250]
           (mkState [] (Some (mkResponse None None (Some errorText))) false
                    (js "book") false
                    [userMessage 1000 (js "q"); errorMessage 1250] [])).
  vm_compute. reflexivity.
Defined.

(** X5.  Every request in flight carries a query that is not blank, and that
    query is the text of a user message in the log. *)
Theorem requests_in_flight_are_logged (es : list Event) (s : State) :
  run es initialState = Some s ->
  Forall (fun q =>
            JsString.trim q <> []
            /\ exists m, In m (chatHistory s) /\ type m = user /\ content m = q)
         (inFlight s).
Proof.
  intro Hrun.
  refine (run_invariant
            (fun s => Forall (fun q =>
               JsString.trim q <> []
               /\ exists m, In m (chatHistory s) /\ type m = user
                            /\ content m = q) (inFlight s))
            _ es initialState s _ Hrun); [|constructor].
  clear. intros e s s' Hinv Hstep.
  assert (Hgrow : forall added,
            Forall (fun q => JsString.trim q <> []
               /\ exists m, In m (chatHistory s ++ added) /\ type m = user
                            /\ content m = q) (inFlight s)).
  { intro added. eapply Forall_impl; [|exact Hinv].
    intros q (Hq & m & Hin & Ht & Hc). split; [exact Hq|].
    exists m. split; [apply in_or_app; left; exact Hin | auto]. }
  destruct (step_cases _ _ _ Hstep)
    as [(Hlog & Hfl & _)|[(now & Htr & Hlog & Hfl & _)
                         |(k & o & now & Hk & Hlog & Hfl & _)]];
    rewrite Hlog, Hfl.
  - exact Hinv.
  - apply Forall_app. split; [apply Hgrow|].
    constructor; [|constructor]. split; [exact Htr|].
    exists (userMessage now (userInput s)).
    split; [apply in_or_app; right; left; reflexivity | auto].
  - apply Forall_forall. intros q Hq. apply dropAt_In in Hq.
    specialize (Hgrow (expectedReply o now)).
    rewrite Forall_forall in Hgrow. exact (Hgrow q Hq).
Qed.

Lemma requests_in_flight_are_logged_witness :
  Forall (fun q =>
            JsString.trim q <> []
            /\ exists m, In m [userMessage 1000 (js "q")]
                         /\ type m = user /\ content m = q)
         [js "q"].
Proof.
  apply (requests_in_flight_are_logged
           [Change (js "q"); Submit 1000]
           (mkState (js "q") None true (js "book") false
                    [userMessage 1000 (js "q")] [js "q"])).
  vm_compute. reflexivity.
Defined.

(** X6.  The loading line is shown only while a request is in flight. *)
Theorem loading_means_pending (es : list Event) (s : State) :
  run es initialState = Some s ->
  loadingShown s = true -> inFlight s <> [].
Proof.
  intro Hrun.
  refine (run_invariant (fun s => loadingShown s = true -> inFlight s <> [])
                        _ es initialState s _ Hrun);
    [|intro H; discriminate H].
  clear. unfold loadingShown. intros e s s' Hinv Hstep.
  destruct (step_cases _ _ _ Hstep)
    as [(_ & Hfl & Hload)|[(now & _ & _ & Hfl & _)
                          |(k & o & now & _ & _ & _ & Hload & _)]].
  - rewrite Hfl, Hload. exact Hinv.
  - rewrite Hfl. intros _ Heq. apply app_eq_nil in Heq.
    destruct Heq as [_ Heq]. discriminate Heq.
  - rewrite Hload. intro H. discriminate H.
Qed.

Lemma loading_means_pending_witness :
  inFlight (mkState (js "q") None true (js "book") false
                    [userMessage 1000 (js "q")] [js "q"]) <> [].
Proof.
  apply (loading_means_pending [Change (js "q"); Submit 1000]).
  - vm_compute. reflexivity.
  - reflexivity.
Defined.

(** X7.  When a request settles, the input box is emptied and the loading line
    goes away, whatever was typed in the meantime and even if other
    requests are still in flight. *)
Theorem settling_clears_the_input (s s' : State) (typed : jsstring) (k : nat)
        (o : FetchOutcome) (now : Z) :
  run [Change typed; Settle k o now] s = Some s' ->
  userInput s' = [] /\ loadingShown s' = false
  /\ S (List.length (inFlight s')) = List.length (inFlight s).
Proof.
  intro Hrun. unfold run in Hrun.
  change (step (Change typed) s) with (Some (setUserInput typed s)) in Hrun.
  cbv beta iota in Hrun.
  destruct (step (Settle k o now) (setUserInput typed s)) as [s1|] eqn:Hstep;
    [|discriminate Hrun].
  injection Hrun as <-.
  destruct (settle_inFlight _ _ _ _ _ Hstep) as [Hk Hfl].
  split; [|split].
  - unfold step in Hstep.
    destruct (at_ (inFlight (setUserInput typed s)) k); [|discriminate].
    injection Hstep as <-. reflexivity.
  - unfold step in Hstep.
    destruct (at_ (inFlight (setUserInput typed s)) k); [|discriminate].
    injection Hstep as <-. reflexivity.
  - rewrite Hfl. apply (dropAt_length k (inFlight s) Hk).
Qed.

Lemma settling_clears_the_input_witness :
  let s := handleSubmit 1001 (handleSubmit 1000 (setUserInput (js "q") initialState)) in
  exists s',
    run [Change (js "typed meanwhile"); Settle 0 Rejected 1250] s = Some s'
    /\ inFlight s' = [js "q"]
    /\ userInput s' = [] /\ loadingShown s' = false
    /\ S (List.length (inFlight s')) = List.length (inFlight s).
Proof.
  intro s.
  destruct (run [Change (js "typed meanwhile"); Settle 0 Rejected 1250] s)
    as [s'|] eqn:Hrun; [|vm_compute in Hrun; discriminate Hrun].
  exists s'. split; [reflexivity|]. split.
  - vm_compute in Hrun. injection Hrun as <-. reflexivity.
  - apply (settling_clears_the_input s s' (js "typed meanwhile") 0 Rejected 1250).
    exact Hrun.
Defined.

Section Acceptance.

Lemma trimStart_nil (x : jsstring) :
  JsString.trimStart x = [] <-> forallb JsString.isWhiteSpace x = true.
Proof.
  induction x as [|c x IH]; simpl; [tauto|].
  destruct (JsString.isWhiteSpace c); simpl; [exact IH|].
  split; intro H; discriminate H.
Qed.

(** What [trimStart] leaves begins with a code unit that is not white
    space. *)
Lemma trimStart_head (x : jsstring) (c : N) (rest : jsstring) :
  JsString.trimStart x = c :: rest -> JsString.isWhiteSpace c = false.
Proof.
  induction x as [|d x IH]; simpl; [discriminate|].
  destruct (JsString.isWhiteSpace d) eqn:Hd; [exact IH|].
  intro H. injection H as <- _. exact Hd.
Qed.

Lemma forallb_rev {A} (f : A -> bool) (l : list A) :
  forallb f (rev l) = forallb f l.
Proof.
  induction l as [|a l IH]; [reflexivity|].
  simpl. rewrite forallb_app, IH. simpl. rewrite andb_true_r. apply andb_comm.
Qed.

(** The trimmed input is empty exactly when every code unit of the input is
    white space. *)
Lemma trim_nil (x : jsstring) :
  JsString.trim x = [] <-> forallb JsString.isWhiteSpace x = true.
Proof.
  unfold JsString.trim, JsString.trimEnd.
  rewrite <- trimStart_nil.
  split; intro H.
  - apply (f_equal (@rev N)) in H. rewrite rev_involutive in H. simpl in H.
    apply trimStart_nil in H. rewrite forallb_rev in H.
    destruct (JsString.trimStart x) as [|c rest] eqn:Hx; [reflexivity|].
    apply trimStart_head in Hx. simpl in H. rewrite Hx in H. discriminate H.
  - rewrite H. reflexivity.
Qed.

End Acceptance.

(** X8.  A submission is accepted exactly when the input has a code unit that is
    not white space: then the log gains one user message and one request is
    issued; an input made of white space only changes neither. *)
Theorem submit_accepts_unless_blank (s : State) (now : Z) :
  chatHistory (handleSubmit now s)
  = chatHistory s
    ++ (if forallb JsString.isWhiteSpace (userInput s) then []
        else [userMessage now (userInput s)])
  /\ inFlight (handleSubmit now s)
     = inFlight s
       ++ (if forallb JsString.isWhiteSpace (userInput s) then []
           else [userInput s]).
Proof.
  unfold handleSubmit.
  destruct (forallb JsString.isWhiteSpace (userInput s)) eqn:Hws.
  - apply trim_nil in Hws. rewrite Hws. simpl.
    rewrite !app_nil_r. split; reflexivity.
  - destruct (JsString.trim (userInput s)) as [|c rest] eqn:Htr.
    + apply trim_nil in Htr. congruence.
    + split; reflexivity.
Qed.

(** X9.  The Send button is disabled exactly when submitting would change
    nothing on the page. *)
Theorem send_disabled_iff_submit_is_noop (s : State) (now : Z) :
  sendDisabled s = true <-> handleSubmit now s = s.
Proof.
  unfold sendDisabled, handleSubmit.
  destruct (JsString.truthy (JsString.trim (userInput s))); simpl.
  - split; [discriminate|]. intro H. exfalso.
    apply (f_equal chatHistory) in H. simpl in H.
    apply (f_equal (@List.length ChatMessage)) in H.
    rewrite length_app in H. simpl in H. lia.
  - split; reflexivity.
Qed.

(** ** Further properties of the chart components *)

Section Palette.

Lemma colorOf_defined (index : nat) :
  exists colour, colorOf index = Some colour /\ In colour COLORS.
Proof.
  unfold colorOf, at_.
  destruct (nth_error COLORS (index mod List.length COLORS)) as [c|] eqn:H.
  - exists c. split; [reflexivity|]. eapply nth_error_In. exact H.
  - exfalso. apply nth_error_None in H.
    pose proof (Nat.mod_upper_bound index (List.length COLORS)) as Hlt.
    simpl in *. lia.
Qed.

Lemma at_firstn_two (row : Row) (c : nat) :
  c < 2 -> at_ (firstn 2 row) c = at_ row c.
Proof.
  intro Hc. destruct row as [|a [|b row]]; destruct c as [|[|c]];
    try reflexivity; lia.
Qed.

Lemma transformedData_firstn_two (rows : list Row) :
  DataVisualization.transformedData (map (firstn 2) rows)
  = DataVisualization.transformedData rows.
Proof.
  unfold DataVisualization.transformedData. rewrite map_map.
  apply map_ext. intro row. rewrite !at_firstn_two by lia. reflexivity.
Qed.

End Palette.

(** X10.  On a chart that is shown, exactly one button of the mode switch is drawn
    as selected, and it is the button of the mode clicked last (of the bar
    mode when nothing was clicked yet). *)
Theorem selected_button_is_last_click (d : option (list Row))
        (ts : list ChartType) (view : DataVisualization.View) :
  DataVisualization.show (DataVisualization.clicks ts (DataVisualization.mount d))
  = Some view ->
  map selects (filter highlighted (DataVisualization.switch view))
  = [last ts bar]
  /\ map selects (DataVisualization.switch view) = [bar; pie; line].
Proof.
  unfold DataVisualization.show.
  rewrite clicks_data, clicks_chartType. simpl.
  destruct d as [[|row rows]|]; simpl; try discriminate.
  intro H. injection H as <-. simpl.
  destruct (last ts bar); split; reflexivity.
Qed.

Lemma selected_button_is_last_click_witness :
  exists view,
    DataVisualization.show
      (DataVisualization.clicks [pie; line; pie]
         (DataVisualization.mount (query_results weekly))) = Some view
    /\ map selects (filter highlighted (DataVisualization.switch view)) = [pie]
    /\ map selects (DataVisualization.switch view) = [bar; pie; line].
Proof.
  eexists. split; [reflexivity|].
  apply (selected_button_is_last_click (query_results weekly) [pie; line; pie]).
  reflexivity.
Defined.

(** X11.  In pie mode the chart gets one cell per row of the dataset, and the
    colour of cell [i] is entry [i mod 6] of the palette: the palette lookup
    never falls outside the palette, however many rows there are. *)
Theorem pie_cells_cycle_the_palette (rows : list Row)
        (view : DataVisualization.View) :
  DataVisualization.render (Some rows) pie = Some view ->
  exists cells,
    DataVisualization.chart view
    = DataVisualization.PieChart 500 300
        (DataVisualization.transformedData rows) cells
    /\ List.length cells = List.length rows
    /\ (forall i, i < List.length rows -> at_ cells i = Some (at_ COLORS (i mod 6)))
    /\ Forall (fun cell => exists colour, cell = Some colour /\ In colour COLORS)
              cells.
Proof.
  destruct rows as [|row rows]; [discriminate|].
  unfold DataVisualization.render. intro H. injection H as <-.
  set (data := row :: rows).
  exists (map colorOf
            (seq 0 (List.length (DataVisualization.transformedData data)))).
  split; [reflexivity|].
  rewrite transformedData_length.
  split; [|split].
  - rewrite length_map, length_seq. reflexivity.
  - intros i Hi. unfold at_ at 1. rewrite nth_error_map.
    rewrite nth_error_seq.
    apply Nat.ltb_lt in Hi. rewrite Hi. reflexivity.
  - apply Forall_forall. intros cell Hin. apply in_map_iff in Hin.
    destruct Hin as (i & <- & _). apply colorOf_defined.
Qed.

Lemma pie_cells_cycle_the_palette_witness :
  exists view cells,
    DataVisualization.render (query_results weekly) pie = Some view
    /\ DataVisualization.chart view
       = DataVisualization.PieChart 500 300
           (DataVisualization.transformedData
              [[CStr (js "Mon"); CNum 3]; [CStr (js "Tue"); CNum 5];
               [CStr (js "Wed"); CNum 2]]) cells
    /\ List.length cells = 3.
Proof.
  eexists.
  destruct (pie_cells_cycle_the_palette
              [[CStr (js "Mon"); CNum 3]; [CStr (js "Tue"); CNum 5];
               [CStr (js "Wed"); CNum 2]] _ eq_refl)
    as (cells & Hchart & Hlen & _).
  exists cells. split; [reflexivity|]. split; [exact Hchart | exact Hlen].
Defined.

(** X12.  Only the first two columns of a result are ever drawn: cutting every
    row down to its first two cells changes neither the scalar text nor the
    chart, in any mode. *)
Theorem only_two_columns_are_drawn (chartType : ChartType) (rows : list Row) :
  renderResults chartType (map (firstn 2) rows) = renderResults chartType rows.
Proof.
  unfold renderResults. rewrite length_map.
  destruct rows as [|r1 [|r2 rest]]; try reflexivity.
  - destruct r1 as [|a [|b r1]]; reflexivity.
  - change (map (firstn 2) (r1 :: r2 :: rest))
      with (firstn 2 r1 :: map (firstn 2) (r2 :: rest)).
    simpl Nat.eqb. cbv iota.
    unfold DataVisualization.render.
    change (firstn 2 r1 :: map (firstn 2) (r2 :: rest))
      with (map (firstn 2) (r1 :: r2 :: rest)).
    rewrite transformedData_firstn_two. reflexivity.
Qed.

Section ByColumn.

Import DataVisualizationByColumn.

Lemma eqb_eq (a b : jsstring) : JsString.eqb a b = true <-> a = b.
Proof.
  unfold JsString.eqb. destruct (list_eq_dec N.eq_dec a b); split;
    intro H; congruence.
Qed.

Lemma eqb_neq (a b : jsstring) : a <> b -> JsString.eqb a b = false.
Proof.
  intro H. destruct (JsString.eqb a b) eqn:E; [|reflexivity].
  apply eqb_eq in E. contradiction.
Qed.

Lemma eqb_refl (a : jsstring) : JsString.eqb a a = true.
Proof. apply eqb_eq. reflexivity. Qed.

(** Reading a property back after it was set. *)
Lemma getProp_setProp_same (key : jsstring) (v : option Cell) (entry : Entry) :
  getProp key (setProp key v entry) = v.
Proof.
  induction entry as [|[k w] rest IH]; simpl.
  - rewrite eqb_refl. reflexivity.
  - destruct (JsString.eqb k key) eqn:E; simpl; rewrite E; [reflexivity|exact IH].
Qed.

(** Setting one property leaves the others as they were. *)
Lemma getProp_setProp_other (key key' : jsstring) (v : option Cell)
      (entry : Entry) :
  key' <> key -> getProp key (setProp key' v entry) = getProp key entry.
Proof.
  intro Hne. induction entry as [|[k w] rest IH]; simpl.
  - rewrite (eqb_neq key' key Hne). reflexivity.
  - destruct (JsString.eqb k key') eqn:E; simpl.
    + apply eqb_eq in E. subst k. rewrite (eqb_neq key' key Hne). reflexivity.
    + destruct (JsString.eqb k key); [reflexivity | exact IH].
Qed.

Lemma js_inj (a b : string) : js a = js b -> a = b.
Proof.
  unfold js, JsString.js. intro H.
  apply (f_equal (map ascii_of_N)) in H. rewrite !map_map in H.
  rewrite (map_ext _ (fun x => x) ascii_N_embedding) in H.
  rewrite (map_ext _ (fun x => x) ascii_N_embedding) in H.
  rewrite !map_id in H.
  apply (f_equal string_of_list_ascii) in H.
  rewrite !string_of_list_ascii_of_string in H. exact H.
Qed.

Lemma ofNat_inj (n m : nat) : JsString.ofNat n = JsString.ofNat m -> n = m.
Proof.
  unfold JsString.ofNat. intro H. apply js_inj in H.
  apply (f_equal NilEmpty.uint_of_string) in H.
  rewrite !NilEmpty.usu in H. injection H as H.
  apply (f_equal Nat.of_uint) in H.
  rewrite !DecimalNat.Unsigned.of_to in H. exact H.
Qed.

Lemma NoDup_map_injective {A B} (f : A -> B) (l : list A) :
  (forall x y, f x = f y -> x = y) -> NoDup l -> NoDup (map f l).
Proof.
  intros Hf Hl. induction Hl as [|x l Hx Hl IH]; simpl; constructor.
  - intro Hin. apply in_map_iff in Hin. destruct Hin as (y & Hy & Hin).
    apply Hf in Hy. subst y. contradiction.
  - exact IH.
Qed.

(** Different rows get different keys. *)
Lemma rowKey_inj (i j : nat) : rowKey i = rowKey j -> i = j.
Proof.
  unfold rowKey. intro H. apply app_inv_head in H. apply ofNat_inj in H. lia.
Qed.

Lemma rowKey_not_name (i : nat) : rowKey i <> js "name".
Proof.
  unfold rowKey. intro H.
  apply (f_equal (fun l => nth_error l 0)) in H. discriminate H.
Qed.


(** The loop [data.forEach((row, rowIndex) => ...)], started at row [a]. *)
Lemma forEach_lookup (c : nat) (rows : list Row) :
  forall (a : nat) (entry : Entry) (j : nat),
    getProp (rowKey j)
      (fold_left
         (fun entry '(rowIndex, row) =>
            setProp (rowKey rowIndex) (at_ row c) entry)
         (combine (seq a (List.length rows)) rows) entry)
    = if (a <=? j) && (j <? a + List.length rows)
      then match at_ rows (j - a) with
           | Some row => at_ row c
           | None => None
           end
      else getProp (rowKey j) entry.
Proof.
  induction rows as [|r rs IH]; intros a entry j.
  - simpl. replace (j <? a + 0) with (j <? a) by (f_equal; lia).
    destruct (Nat.leb_spec a j); destruct (Nat.ltb_spec j a);
      try reflexivity; lia.
  - simpl List.length. simpl seq. simpl combine. simpl fold_left.
    rewrite IH.
    destruct (Nat.leb_spec (S a) j) as [H1|H1];
      destruct (Nat.ltb_spec j (S a + List.length rs)) as [H2|H2];
      destruct (Nat.leb_spec a j) as [H3|H3];
      destruct (Nat.ltb_spec j (a + S (List.length rs))) as [H4|H4];
      simpl andb; cbv iota; try lia.
    + replace (j - a) with (S (j - S a)) by lia. reflexivity.
    + apply getProp_setProp_other. intro H. apply rowKey_inj in H. lia.
    + assert (j = a) by lia. subst j. rewrite Nat.sub_diag. simpl.
      apply getProp_setProp_same.
    + apply getProp_setProp_other. intro H. apply rowKey_inj in H. lia.
Qed.

Lemma forEach_keeps (c : nat) (key : jsstring) (rows : list Row) :
  (forall i, rowKey i <> key) ->
  forall (a : nat) (entry : Entry),
    getProp key
      (fold_left
         (fun entry '(rowIndex, row) =>
            setProp (rowKey rowIndex) (at_ row c) entry)
         (combine (seq a (List.length rows)) rows) entry)
    = getProp key entry.
Proof.
  intro Hkey. induction rows as [|r rs IH]; intros a entry; [reflexivity|].
  simpl List.length. simpl seq. simpl combine. simpl fold_left.
  rewrite IH. apply getProp_setProp_other. apply Hkey.
Qed.

(** What an entry holds: the column's name, and each row's cell of that
    column under that row's key. *)
Lemma entryOf_lookup (data : list Row) (labels : option (list jsstring))
      (c : nat) :
  getProp (js "name") (entryOf data labels c)
  = Some (CStr (columnName labels c))
  /\ forall i,
       getProp (rowKey i) (entryOf data labels c)
       = match at_ data i with
         | Some row => at_ row c
         | None => None
         end.
Proof.
  unfold entryOf. split.
  - rewrite forEach_keeps by apply rowKey_not_name.
    apply getProp_setProp_same.
  - intro i. rewrite forEach_lookup. rewrite Nat.sub_0_r.
    change (0 + List.length data) with (List.length data).
    change (0 <=? i) with true. cbv beta iota delta [andb].
    destruct (Nat.ltb_spec i (List.length data)) as [H|H].
    + reflexivity.
    + rewrite getProp_setProp_other
        by (intro E; symmetry in E; exact (rowKey_not_name i E)).
      simpl. replace (at_ data i) with (@None Row); [reflexivity|].
      symmetry. apply nth_error_None. lia.
Qed.

End ByColumn.

(** X13.  In the by-column component, bar and line mode draw one series per row of
    the dataset, under keys that differ from row to row, over one entry per
    column of the first row; and the value series [i] finds in the entry of
    column [c] is the cell of row [i] in column [c] (undefined when that row
    is too short), while the entry's name is the column's name. *)
Theorem by_column_series_show_every_cell (first : Row) (rest : list Row)
        (labels : option (list jsstring)) :
  let data := first :: rest in
  let transformed := DataVisualizationByColumn.transformedData data labels in
  let series :=
    map (fun i => (DataVisualizationByColumn.rowKey i, colorOf i))
        (seq 0 (List.length data)) in
  DataVisualizationByColumn.renderChart bar data transformed
  = DataVisualizationByColumn.BarChart 500 300 transformed series
  /\ DataVisualizationByColumn.renderChart line data transformed
     = DataVisualizationByColumn.LineChart 500 300 transformed series
  /\ NoDup (map fst series)
  /\ List.length transformed = List.length first
  /\ forall c, c < List.length first ->
       exists entry,
         at_ transformed c = Some entry
         /\ DataVisualizationByColumn.getProp (js "name") entry
            = Some (CStr (DataVisualizationByColumn.columnName labels c))
         /\ forall i,
              DataVisualizationByColumn.getProp
                (DataVisualizationByColumn.rowKey i) entry
              = match at_ data i with
                | Some row => at_ row c
                | None => None
                end.
Proof.
  intros data transformed series.
  split; [reflexivity|]. split; [reflexivity|]. split; [|split].
  - unfold series. rewrite map_map.
    apply NoDup_map_injective; [|apply seq_NoDup].
    intros i j H. simpl in H. apply rowKey_inj. exact H.
  - unfold transformed. simpl. rewrite length_map, length_seq. reflexivity.
  - intros c Hc.
    exists (DataVisualizationByColumn.entryOf data labels c). split.
    + unfold transformed, at_. simpl.
      rewrite nth_error_map, nth_error_seq.
      apply Nat.ltb_lt in Hc. rewrite Hc. reflexivity.
    + apply entryOf_lookup.
Qed.


(** ** The earlier page [JourneyChat] *)

Section EarlierPage.

Lemma settledOrBusy_step (e : JourneyChat.Event) (s s' : JourneyChat.State) :
  settledOrBusy s -> JourneyChat.step e s = Some s' -> settledOrBusy s'.
Proof.
  intros Hinv Hstep. destruct e as [v| |k o].
  - injection Hstep as <-. exact Hinv.
  - simpl in Hstep.
    destruct Hinv as [[Hl Hf]|[Hl Hf]]; rewrite Hl in Hstep;
      injection Hstep as <-.
    + unfold JourneyChat.handleSubmit.
      destruct (JsString.truthy (JsString.trim (JourneyChat.userInput s)))
        eqn:Htr.
      * right. split; [reflexivity|].
        exists (JourneyChat.userInput s). simpl. rewrite Hf.
        split; [reflexivity|]. apply truthy_true. exact Htr.
      * left. split; assumption.
    + right. split; assumption.
  - simpl in Hstep.
    destruct Hinv as [[Hl Hf]|[Hl (q & Hf & Hq)]]; rewrite Hf in Hstep.
    + destruct k; discriminate Hstep.
    + destruct k as [|k]; [|destruct k; discriminate Hstep].
      simpl in Hstep. injection Hstep as <-. left.
      destruct o as [|status [data|]]; split; reflexivity.
Qed.

End EarlierPage.

Lemma earlier_page_run (es : list JourneyChat.Event) :
  forall (s s' : JourneyChat.State),
    settledOrBusy s -> JourneyChat.run es s = Some s' -> settledOrBusy s'.
Proof.
  induction es as [|e es IH]; intros s s' Hinv Hrun.
  - injection Hrun as <-. exact Hinv.
  - simpl in Hrun.
    destruct (JourneyChat.step e s) as [s1|] eqn:He; [|discriminate].
    apply (IH s1 s'); [|exact Hrun].
    exact (settledOrBusy_step e s s1 Hinv He).
Qed.

(** X15.  On the earlier page the Submit button is disabled while a request is
    pending, so in every state the page can reach at most one request is in
    flight, it carries a query that is not blank, and the page shows itself
    as loading exactly while that request is in flight. *)
Theorem earlier_page_one_request_at_a_time (es : list JourneyChat.Event)
        (s : JourneyChat.State) :
  JourneyChat.run es JourneyChat.initialState = Some s ->
  List.length (JourneyChat.inFlight s) <= 1
  /\ Forall (fun q => JsString.trim q <> []) (JourneyChat.inFlight s)
  /\ (JourneyChat.isLoading s = true <-> JourneyChat.inFlight s <> []).
Proof.
  intro Hrun.
  assert (H : settledOrBusy s).
  { apply (earlier_page_run es JourneyChat.initialState s); [|exact Hrun].
    left. split; reflexivity. }
  destruct H as [[Hl Hf]|[Hl (q & Hf & Hq)]]; rewrite Hl, Hf.
  - split; [simpl; lia|]. split; [constructor|].
    split; [discriminate | intro H; contradiction H; reflexivity].
  - split; [simpl; lia|]. split; [constructor; [exact Hq|constructor]|].
    split; [discriminate | reflexivity].
Qed.

Lemma earlier_page_one_request_at_a_time_witness :
  let s := JourneyChat.mkState (js "q") JourneyChat.JNull true [js "q"] in
  List.length (JourneyChat.inFlight s) <= 1
  /\ Forall (fun q => JsString.trim q <> []) (JourneyChat.inFlight s)
  /\ (JourneyChat.isLoading s = true <-> JourneyChat.inFlight s <> []).
Proof.
  apply (earlier_page_one_request_at_a_time
           [JourneyChat.Change (js "q"); JourneyChat.Click; JourneyChat.Click]).
  vm_compute. reflexivity.
Defined.



(** ** The widgets *)

(** X17.  A tab trigger outside of a [Tabs] throws.  Inside, it is drawn, and it
    is marked selected exactly when its value is the one clicked last, or,
    before any click, the default value of the [Tabs] (the empty string when
    there is none). *)
Theorem tabs_trigger_selection (value : jsstring) (cls : option jsstring) :
  Tabs.TabsTrigger None value cls
  = Tabs.Thrown (js "TabsTrigger must be used within a Tabs component")
  /\ (forall active clicked, exists button,
        Tabs.TabsTrigger (Some (Tabs.handleClick clicked active)) value cls
        = Tabs.Drawn button
        /\ (Tabs.ariaSelected button = true <-> value = clicked))
  /\ (forall defaultValue, exists button,
        Tabs.TabsTrigger (Some (Tabs.initialTab defaultValue)) value cls
        = Tabs.Drawn button
        /\ (Tabs.ariaSelected button = true
            <-> value = match defaultValue with Some v => v | None => [] end)).
Proof.
  split; [reflexivity|]. split.
  - intros active clicked. eexists. split; [reflexivity|]. simpl.
    unfold Tabs.handleClick. rewrite eqb_eq. split; congruence.
  - intro defaultValue. eexists. split; [reflexivity|]. simpl.
    rewrite eqb_eq.
    assert (Hinit : Tabs.initialTab defaultValue
                    = match defaultValue with Some v => v | None => [] end)
      by (destruct defaultValue as [[|c v]|]; reflexivity).
    rewrite Hinit. split; congruence.
Qed.

(** X18.  A widget drawn without a [className] prop carries the class name
    "undefined": the missing prop is spliced into the class attribute as
    text.  This holds for every variant and size of [Button], for [Input],
    and for a tab trigger whether selected or not. *)
Theorem missing_className_becomes_undefined :
  (forall variant size disabledProp,
     In (js "undefined")
        (tokens (Button.className (Button.Button variant size None disabledProp))))
  /\ tokens (Input.className None) = [js "input"; js "undefined"]
  /\ (forall active value, exists button,
        Tabs.TabsTrigger (Some active) value None = Tabs.Drawn button
        /\ In (js "undefined") (tokens (Tabs.className button))).
Proof.
  split; [|split].
  - intros variant size disabledProp.
    destruct variant, size; vm_compute;
      repeat (first [left; reflexivity | right]).
  - reflexivity.
  - intros active value. eexists. split; [reflexivity|]. simpl.
    destruct (JsString.eqb active value); vm_compute;
      left; reflexivity.
Qed.
